(** * Campus device-loans product catalogue: the Cosmos DB product repository
      and the list-products HTTP function

    A shallow embedding of [src/infra/cosmos-product-repo.ts] (class
    [CosmosProductRepo]) and [src/functions/list-products-http.ts]
    (function [listProductsHttp]), together with the properties the
    specification states about them.

    The TypeScript runs on a JavaScript engine, so the embedding starts with
    the fragment of the ECMAScript semantics the two files rely on:
    primitive values and their coercions, completions (normal or abrupt),
    and the [Date] time-value arithmetic behind [toISOString] and
    [new Date(string)]. *)

From Stdlib Require Import ZArith QArith Lia Bool Ascii String List.
From stdpp Require Import base option gmap strings.

Local Open Scope string_scope.
Local Open Scope Z_scope.

(** ** ECMAScript values *)

Module JS.

(** The Number type.  The sources never compute with numbers: they copy them
    and compare them with integer literals.  A finite number is therefore
    represented by the rational it denotes (every finite double is one; the
    two zeros are identified), and a decimal literal such as [99.99] by the
    rational it spells. *)
Inductive number : Type :=
  | NaN
  | Infinity (negative : bool)
  | Finite (q : Q).

Definition of_Z (z : Z) : number := Finite (inject_Z z).
Definition of_nat (n : nat) : number := of_Z (Z.of_nat n).

(** Primitive values, as far as JSON and [undefined] reach (no Symbol, no
    BigInt). *)
Inductive primitive : Type :=
  | Undefined
  | Null
  | Bool (b : bool)
  | Num (n : number)
  | Str (s : string).

(** A value that can be thrown and caught: a primitive, or an object seen as
    the finite map from the names of its properties (own or inherited) to
    their values.  The properties are data properties (no accessor runs
    when one is read) and their values are primitives: the sources read
    [code] and [message] of a caught value and nothing below them. *)
Inductive value : Type :=
  | Prim (p : primitive)
  | Object (props : gmap string primitive).

(** Completion records: a computation finishes normally with a value or
    abruptly with a thrown one.  An [async] function that throws rejects the
    promise it returned, and [await] turns a rejection back into a throw, so
    one type serves for both. *)
Inductive completion (A : Type) : Type :=
  | Normal (a : A)
  | Throw (e : value).
Arguments Normal {A} a.
Arguments Throw {A} e.

#[global] Instance completion_ret : MRet completion := fun A a => Normal a.
#[global] Instance completion_bind : MBind completion := fun A B f m =>
  match m with
  | Normal a => f a
  | Throw e => Throw e
  end.

(** [try { body } catch (error) { handler }] *)
Definition try_catch {A} (body : completion A) (handler : value -> completion A)
  : completion A :=
  match body with
  | Normal a => Normal a
  | Throw e => handler e
  end.

(** The tree [JSON.stringify] walks before it writes text. *)
#[local] Unset Elimination Schemes.
Inductive json : Type :=
  | JNull
  | JBool (b : bool)
  | JNumber (n : number)
  | JString (s : string)
  | JArray (items : list json)
  | JObject (members : list (string * json)).
#[local] Set Elimination Schemes.

(** What the engine provides and the embedding leaves open:
    string-to-number conversion (StringToNumber), the date formats
    [Date.parse] accepts beyond the complete UTC form of the Date Time
    String Format, and the text [JSON.stringify] writes for a tree and an
    indentation. *)
Class Host : Type := {
  StringToNumber : string -> number;
  DateParseOther : string -> option Z;
  SerializeJSON : json -> Z -> string;
}.

(** The value of an object's property, [undefined] when it has none. *)
Definition property (props : gmap string primitive) (key : string) : primitive :=
  default Undefined (props !! key).

(** A native error instance ([TypeError], [RangeError]) as a thrown value.
    The message texts used below are V8's, the engine of Node.js. *)
Definition NativeError (name message : string) : value :=
  Object {[ "name" := Str name; "message" := Str message ]}.

(** [v.key] for a key that no wrapper prototype defines (the sources read
    [code] and [message]): [undefined] and [null] have no properties and the
    read throws a TypeError; a primitive has no such property; an object
    yields the property's value, or [undefined] when it has none. *)
Definition Get (v : value) (key : string) : completion primitive :=
  match v with
  | Prim Undefined =>
      Throw (NativeError "TypeError"
        ("Cannot read properties of undefined (reading '" +:+ key +:+ "')"))
  | Prim Null =>
      Throw (NativeError "TypeError"
        ("Cannot read properties of null (reading '" +:+ key +:+ "')"))
  | Prim _ => Normal Undefined
  | Object props => Normal (property props key)
  end.

Definition is_zero (q : Q) : bool := Qeq_bool q 0.

Definition ToBoolean (p : primitive) : bool :=
  match p with
  | Undefined | Null => false
  | Bool b => b
  | Num NaN => false
  | Num (Infinity _) => true
  | Num (Finite q) => negb (is_zero q)
  | Str s => negb (String.eqb s "")
  end.

Definition ToNumber `{Host} (p : primitive) : number :=
  match p with
  | Undefined => NaN
  | Null => of_Z 0
  | Bool b => of_Z (if b then 1 else 0)
  | Num n => n
  | Str s => StringToNumber s
  end.

(** Number::equal and Number::lessThan ([None] is the undefined result that
    a NaN operand gives). *)
Definition Number_equal (x y : number) : bool :=
  match x, y with
  | Finite p, Finite q => Qeq_bool p q
  | Infinity a, Infinity b => Bool.eqb a b
  | _, _ => false
  end.

Definition Number_lessThan (x y : number) : option bool :=
  match x, y with
  | NaN, _ | _, NaN => None
  | Finite p, Finite q => Some (negb (Qle_bool q p))
  | Infinity a, Infinity b => Some (a && negb b)
  | Infinity a, Finite _ => Some a
  | Finite _, Infinity b => Some (negb b)
  end.

(** [x === y] *)
Definition IsStrictlyEqual (x y : primitive) : bool :=
  match x, y with
  | Undefined, Undefined => true
  | Null, Null => true
  | Bool a, Bool b => Bool.eqb a b
  | Num a, Num b => Number_equal a b
  | Str a, Str b => String.eqb a b
  | _, _ => false
  end.

(** IsLessThan on primitives: two strings compare as strings, anything else
    as numbers. *)
Definition IsLessThan `{Host} (x y : primitive) : option bool :=
  match x, y with
  | Str a, Str b => Some (String.ltb a b)
  | _, _ => Number_lessThan (ToNumber x) (ToNumber y)
  end.

(** [x < y] and [x >= y]: an undefined comparison makes both false. *)
Definition less_than `{Host} (x y : primitive) : bool :=
  default false (IsLessThan x y).
Definition greater_or_equal `{Host} (x y : primitive) : bool :=
  match IsLessThan x y with
  | Some false => true
  | _ => false
  end.

(** [x || y] *)
Definition logical_or (x y : primitive) : primitive :=
  if ToBoolean x then x else y.

End JS.

Import JS.

(** ** Dates

    ECMA-262, "Date Objects": time values are milliseconds since the epoch,
    UTC; the calendar is proleptic Gregorian. *)

Module JSDate.

(** A Date object holds a time value: NaN (an invalid date) or an integral
    number of milliseconds that [TimeClip] let through. *)
Inductive Date : Type :=
  | InvalidDate
  | Instant (tv : Z).

Definition msPerDay : Z := 86400000.
Definition msPerHour : Z := 3600000.
Definition msPerMinute : Z := 60000.
Definition msPerSecond : Z := 1000.
Definition maxTime : Z := 8640000000000000.

Definition Day (t : Z) : Z := t / msPerDay.
Definition TimeWithinDay (t : Z) : Z := t mod msPerDay.

Definition is_leap (y : Z) : bool :=
  if negb (y mod 4 =? 0) then false
  else if negb (y mod 100 =? 0) then true
  else if negb (y mod 400 =? 0) then false
  else true.

Definition DaysInYear (y : Z) : Z := if is_leap y then 366 else 365.

Definition DayFromYear (y : Z) : Z :=
  365 * (y - 1970) + (y - 1969) / 4 - (y - 1901) / 100 + (y - 1601) / 400.

Definition TimeFromYear (y : Z) : Z := msPerDay * DayFromYear y.

(** The largest year whose first day is not after the given day: the mean
    Gregorian year gives an estimate that is off by at most one. *)
Definition year_of_day (d : Z) : Z :=
  let y := 1970 + (400 * d) / 146097 in
  if d <? DayFromYear y then y - 1
  else if DayFromYear (y + 1) <=? d then y + 1
  else y.

Definition YearFromTime (t : Z) : Z := year_of_day (Day t).
Definition InLeapYear (t : Z) : bool := is_leap (YearFromTime t).
Definition DayWithinYear (t : Z) : Z := Day t - DayFromYear (YearFromTime t).

(** Day number within the year at which month [m] (0 = January) starts. *)
Definition month_start (m : Z) (leap : bool) : Z :=
  let l := if leap then 1 else 0 in
  match m with
  | 0 => 0
  | 1 => 31
  | 2 => 59 + l
  | 3 => 90 + l
  | 4 => 120 + l
  | 5 => 151 + l
  | 6 => 181 + l
  | 7 => 212 + l
  | 8 => 243 + l
  | 9 => 273 + l
  | 10 => 304 + l
  | 11 => 334 + l
  | _ => 365 + l
  end.

Definition month_of_day (dwy : Z) (leap : bool) : Z :=
  if dwy <? month_start 1 leap then 0
  else if dwy <? month_start 2 leap then 1
  else if dwy <? month_start 3 leap then 2
  else if dwy <? month_start 4 leap then 3
  else if dwy <? month_start 5 leap then 4
  else if dwy <? month_start 6 leap then 5
  else if dwy <? month_start 7 leap then 6
  else if dwy <? month_start 8 leap then 7
  else if dwy <? month_start 9 leap then 8
  else if dwy <? month_start 10 leap then 9
  else if dwy <? month_start 11 leap then 10
  else 11.

Definition MonthFromTime (t : Z) : Z :=
  month_of_day (DayWithinYear t) (InLeapYear t).

Definition DateFromTime (t : Z) : Z :=
  DayWithinYear t - month_start (MonthFromTime t) (InLeapYear t) + 1.

Definition HourFromTime (t : Z) : Z := (t / msPerHour) mod 24.
Definition MinFromTime (t : Z) : Z := (t / msPerMinute) mod 60.
Definition SecFromTime (t : Z) : Z := (t / msPerSecond) mod 60.
Definition msFromTime (t : Z) : Z := t mod msPerSecond.

Definition MakeTime (hour min sec ms : Z) : Z :=
  hour * msPerHour + min * msPerMinute + sec * msPerSecond + ms.

(** [MakeDay year month date], [month] counted from 0. *)
Definition MakeDay (year month date : Z) : Z :=
  let ym := year + month / 12 in
  let mn := month mod 12 in
  DayFromYear ym + month_start mn (is_leap ym) + date - 1.

Definition MakeDate (day time : Z) : Z := day * msPerDay + time.

Definition TimeClip (time : option Z) : Date :=
  match time with
  | None => InvalidDate
  | Some t => if Z.abs t <=? maxTime then Instant t else InvalidDate
  end.

(** *** The Date Time String Format, written *)

Definition digit (d : Z) : ascii := ascii_of_N (Z.to_N (48 + d)).

Definition digits2 (n : Z) (k : string) : string :=
  String (digit (n / 10)) (String (digit (n mod 10)) k).
Definition digits3 (n : Z) (k : string) : string :=
  String (digit (n / 100)) (digits2 (n mod 100) k).
Definition digits4 (n : Z) (k : string) : string :=
  digits2 (n / 100) (digits2 (n mod 100) k).
Definition digits6 (n : Z) (k : string) : string :=
  digits2 (n / 10000) (digits4 (n mod 10000) k).

(** Years 0 to 9999 take four digits, all others a sign and six. *)
Definition year_digits (y : Z) (k : string) : string :=
  if (0 <=? y) && (y <=? 9999) then digits4 y k
  else if y <? 0 then String "-" (digits6 (- y) k)
  else String "+" (digits6 y k).

(** YYYY-MM-DDTHH:mm:ss.sssZ for a finite time value. *)
Definition iso_string (tv : Z) : string :=
  year_digits (YearFromTime tv)
    (String "-" (digits2 (MonthFromTime tv + 1)
    (String "-" (digits2 (DateFromTime tv)
    (String "T" (digits2 (HourFromTime tv)
    (String ":" (digits2 (MinFromTime tv)
    (String ":" (digits2 (SecFromTime tv)
    (String "." (digits3 (msFromTime tv)
    (String "Z" EmptyString))))))))))))).

(** [Date.prototype.toISOString]: a RangeError on an invalid date. *)
Definition toISOString (d : Date) : completion string :=
  match d with
  | InvalidDate => Throw (NativeError "RangeError" "Invalid time value")
  | Instant tv => Normal (iso_string tv)
  end.

(** *** The Date Time String Format, read *)

Definition digit_value (c : ascii) : option Z :=
  let n := Z.of_N (N_of_ascii c) in
  if (48 <=? n) && (n <=? 57) then Some (n - 48) else None.

Definition read2 (s : string) : option (Z * string) :=
  match s with
  | String a (String b rest) =>
      x ← digit_value a; y ← digit_value b; Some (10 * x + y, rest)
  | _ => None
  end.
Definition read3 (s : string) : option (Z * string) :=
  match s with
  | String a rest =>
      x ← digit_value a; '(n, rest') ← read2 rest; Some (100 * x + n, rest')
  | _ => None
  end.
Definition read4 (s : string) : option (Z * string) :=
  '(hi, rest) ← read2 s; '(lo, rest') ← read2 rest; Some (100 * hi + lo, rest').
Definition read6 (s : string) : option (Z * string) :=
  '(hi, rest) ← read2 s; '(lo, rest') ← read4 rest; Some (10000 * hi + lo, rest').

Definition expect (c : ascii) (s : string) : option string :=
  match s with
  | String a rest => if Ascii.eqb a c then Some rest else None
  | EmptyString => None
  end.

(** A year is four digits, or a sign and six digits; minus zero is not a
    year. *)
Definition read_year (s : string) : option (Z * string) :=
  match s with
  | String "+" rest => read6 rest
  | String "-" rest =>
      '(y, rest') ← read6 rest; if y =? 0 then None else Some (- y, rest')
  | _ => read4 s
  end.

Definition DaysInMonth (month : Z) (leap : bool) : Z :=
  month_start (month + 1) leap - month_start month leap.

(** The complete form with the UTC designator and fields that name a moment
    of the calendar: the time value it denotes.  Any other string is not
    for this function to judge. *)
Definition parse_complete_utc (s : string) : option Z :=
  '(y, s) ← read_year s;
  s ← expect "-" s;
  '(mo, s) ← read2 s;
  s ← expect "-" s;
  '(d, s) ← read2 s;
  s ← expect "T" s;
  '(h, s) ← read2 s;
  s ← expect ":" s;
  '(mi, s) ← read2 s;
  s ← expect ":" s;
  '(sec, s) ← read2 s;
  s ← expect "." s;
  '(ms, s) ← read3 s;
  s ← expect "Z" s;
  if String.eqb s ""
     && (1 <=? mo) && (mo <=? 12)
     && (1 <=? d) && (d <=? DaysInMonth (mo - 1) (is_leap y))
     && (h <=? 23) && (mi <=? 59) && (sec <=? 59)
  then Some (MakeDate (MakeDay y (mo - 1) d) (MakeTime h mi sec ms))
  else None.

(** [Date.parse] *)
Definition parse `{Host} (s : string) : option Z :=
  match parse_complete_utc s with
  | Some tv => Some tv
  | None => DateParseOther s
  end.

(** [new Date(s)] for a string [s]. *)
Definition from_string `{Host} (s : string) : Date := TimeClip (parse s).

(** [new Date()] when the clock reads [now]. *)
Definition from_clock (now : Z) : Date := TimeClip (Some now).

End JSDate.

Import JSDate.

(** ** Domain types

    [src/domain/product.ts] and [src/domain/product-repo.ts] are imported by
    both sources; their shapes are fixed by the object literals the sources
    build and by the specification's data model. *)

(** Modelled from the spec: the [Product] entity of the domain model ([id],
    [name], [price], [category], optional [description], [inStock],
    [createdAt] timestamp); the declaring file is not among the sources. *)
Module Product.
Record Product : Type := {
  id : string;
  name : string;
  price : number;
  category : string;
  description : option string;
  inStock : bool;
  createdAt : Date;
}.
End Product.
Abbreviation Product := Product.Product.

(** Modelled from the spec: the closed enumeration of error codes; the
    declaring file is not among the sources. *)
Inductive RepositoryErrorCode : Type :=
  | ALREADY_EXISTS
  | NOT_FOUND
  | VALIDATION_ERROR
  | PERSISTENCE_ERROR.

(** Modelled from the spec: [RepositoryError] is [{code, message}].  The
    message is whatever the translator stored there: a string by type, any
    primitive at run time. *)
Module RepositoryError.
Record RepositoryError : Type := {
  code : RepositoryErrorCode;
  message : primitive;
}.
End RepositoryError.
Abbreviation RepositoryError := RepositoryError.RepositoryError.

(** Modelled from the spec: [RepositoryResult<T>] is the object
    [{success, data?, error?}]; an absent property is [None]. *)
Module RepositoryResult.
Record RepositoryResult (T : Type) : Type := {
  success : bool;
  data : option T;
  error : option RepositoryError;
}.
Arguments success {T} _.
Arguments data {T} _.
Arguments error {T} _.
End RepositoryResult.
Abbreviation RepositoryResult := RepositoryResult.RepositoryResult.

(** Modelled from the spec: the repository abstraction, with the two
    operations a storage backend supports. *)
Module ProductRepo.
Class ProductRepo : Type := {
  create : Product -> completion (RepositoryResult Product);
  get : string -> completion (RepositoryResult Product);
}.
End ProductRepo.
Abbreviation ProductRepo := ProductRepo.ProductRepo.

(** ** The document-store client

    What [CosmosProductRepo] uses of [@azure/cosmos]: a container with
    [items.create(body, options)] and [item(id, partitionKey).read()].  Each
    call is awaited: it yields a response or throws what the promise was
    rejected with. *)
Module Cosmos.
Record ItemResponse (T : Type) : Type := { resource : option T }.
Arguments resource {T} _.
Record RequestOptions : Type := { disableAutomaticIdGeneration : bool }.
Record Items (T : Type) : Type := {
  create : T -> RequestOptions -> completion (ItemResponse T);
}.
Arguments create {T} _ _ _.
Record Item (T : Type) : Type := { read : completion (ItemResponse T) }.
Arguments read {T} _.
Record Container (T : Type) : Type := {
  items : Items T;
  item : string -> string -> Item T;
}.
Arguments items {T} _.
Arguments item {T} _ _ _.
End Cosmos.

(** ** [CosmosProductRepo]

    The constructor builds the client and picks the container; the
    embedding starts from the container it ends with. *)

Module ProductDocument.
Record ProductDocument : Type := {
  id : string;
  name : string;
  price : number;
  category : string;
  description : option string;
  inStock : bool;
  createdAt : string;
  _rid : option string;
  _self : option string;
  _etag : option string;
  _attachments : option string;
  _ts : option number;
}.
End ProductDocument.
Abbreviation ProductDocument := ProductDocument.ProductDocument.

Module CosmosProductRepo.
Section WithHost.
Context `{Host}.

Record CosmosProductRepo : Type := {
  container : Cosmos.Container ProductDocument;
}.

Definition toDocument (product : Product) : completion ProductDocument :=
  createdAt ← toISOString (Product.createdAt product);
  mret {|
    ProductDocument.id := Product.id product;
    ProductDocument.name := Product.name product;
    ProductDocument.price := Product.price product;
    ProductDocument.category := Product.category product;
    ProductDocument.description := Product.description product;
    ProductDocument.inStock := Product.inStock product;
    ProductDocument.createdAt := createdAt;
    ProductDocument._rid := None;
    ProductDocument._self := None;
    ProductDocument._etag := None;
    ProductDocument._attachments := None;
    ProductDocument._ts := None;
  |}.

Definition toDomain (document : ProductDocument) : Product :=
  {|
    Product.id := ProductDocument.id document;
    Product.name := ProductDocument.name document;
    Product.price := ProductDocument.price document;
    Product.category := ProductDocument.category document;
    Product.description := ProductDocument.description document;
    Product.inStock := ProductDocument.inStock document;
    Product.createdAt := JSDate.from_string (ProductDocument.createdAt document);
  |}.

(** [error.code >= 400 && error.code < 500] *)
Definition code_is_4xx (error : value) : completion bool :=
  code ← Get error "code";
  if greater_or_equal code (Num (of_Z 400)) then
    code ← Get error "code";
    mret (less_than code (Num (of_Z 500)))
  else mret false.

Definition mapCosmosError (error : value) : completion RepositoryError :=
  code ← Get error "code";
  if IsStrictlyEqual code (Num (of_Z 409)) then
    mret {|
      RepositoryError.code := ALREADY_EXISTS;
      RepositoryError.message := Str "A product with this ID already exists";
    |}
  else
  code ← Get error "code";
  if IsStrictlyEqual code (Num (of_Z 404)) then
    mret {|
      RepositoryError.code := NOT_FOUND;
      RepositoryError.message := Str "Product not found";
    |}
  else
  client_error ← code_is_4xx error;
  if client_error : bool then
    message ← Get error "message";
    mret {|
      RepositoryError.code := VALIDATION_ERROR;
      RepositoryError.message := logical_or message (Str "Invalid request");
    |}
  else
    message ← Get error "message";
    mret {|
      RepositoryError.code := PERSISTENCE_ERROR;
      RepositoryError.message :=
        logical_or message
          (Str "An error occurred while accessing the database");
    |}.

Definition succeeded {T} (data : T) : RepositoryResult T :=
  {| RepositoryResult.success := true;
     RepositoryResult.data := Some data;
     RepositoryResult.error := None |}.

Definition failed {T} (error : RepositoryError) : RepositoryResult T :=
  {| RepositoryResult.success := false;
     RepositoryResult.data := None;
     RepositoryResult.error := Some error |}.

Definition create (this : CosmosProductRepo) (product : Product)
  : completion (RepositoryResult Product) :=
  try_catch
    (document ← toDocument product;
     response ← Cosmos.create (Cosmos.items (container this)) document
                  {| Cosmos.disableAutomaticIdGeneration := true |};
     match Cosmos.resource response with
     | Some resource =>
         let createdProduct := toDomain resource in
         mret (succeeded createdProduct)
     | None =>
         mret (failed {|
           RepositoryError.code := PERSISTENCE_ERROR;
           RepositoryError.message :=
             Str "Failed to create product - no resource returned";
         |})
     end)
    (fun error =>
       translated ← mapCosmosError error;
       mret (failed translated)).

Definition get (this : CosmosProductRepo) (id : string)
  : completion (RepositoryResult Product) :=
  try_catch
    (response ← Cosmos.read (Cosmos.item (container this) id id);
     match Cosmos.resource response with
     | Some resource =>
         let product := toDomain resource in
         mret (succeeded product)
     | None =>
         mret (failed {|
           RepositoryError.code := NOT_FOUND;
           RepositoryError.message :=
             Str ("Product with ID '" +:+ id +:+ "' not found");
         |})
     end)
    (fun error =>
       translated ← mapCosmosError error;
       mret (failed translated)).

(** [class CosmosProductRepo implements ProductRepo] *)
Definition as_ProductRepo (this : CosmosProductRepo) : ProductRepo :=
  {| ProductRepo.create := create this; ProductRepo.get := get this |}.

End WithHost.
End CosmosProductRepo.

(** ** The list-products HTTP function *)

(** The function reads the clock ([new Date()]) and writes to the
    invocation log ([context.log]), so it runs in a world that holds both:
    [ticks n] is what the clock shows at its [n]-th reading. *)
Record World : Type := {
  ticks : nat -> Z;
  reads : nat;
  logged : list (list value);
}.

Definition effect (A : Type) : Type := World -> completion A * World.

#[global] Instance effect_ret : MRet effect := fun A a w => (Normal a, w).
#[global] Instance effect_bind : MBind effect := fun A B f m w =>
  match m w with
  | (Normal a, w') => f a w'
  | (Throw e, w') => (Throw e, w')
  end.

Definition try_catch_effect {A} (body : effect A) (handler : value -> effect A)
  : effect A :=
  fun w =>
    match body w with
    | (Normal a, w') => (Normal a, w')
    | (Throw e, w') => handler e w'
    end.

Definition lift {A} (c : completion A) : effect A := fun w => (c, w).

(** [new Date()] *)
Definition new_Date : effect Date := fun w =>
  (Normal (JSDate.from_clock (ticks w (reads w))),
   {| ticks := ticks w; reads := S (reads w); logged := logged w |}).

(** [context.log(...args)] *)
Definition context_log (args : list value) : effect unit := fun w =>
  (Normal tt,
   {| ticks := ticks w; reads := reads w; logged := logged w ++ [args] |}).

Record HttpRequest : Type := { method : string; url : string }.
Record InvocationContext : Type := { invocationId : string; functionName : string }.

Record HttpResponseInit : Type := {
  status : Z;
  headers : gmap string string;
  body : string;
}.

Module ListProductsResponse.
Record ErrorBody : Type := { code : string; message : string }.
Record Metadata : Type := { count : number; timestamp : string }.
Record ListProductsResponse : Type := {
  success : bool;
  data : option (list Product);
  error : option ErrorBody;
  metadata : option Metadata;
}.
End ListProductsResponse.
Abbreviation ListProductsResponse := ListProductsResponse.ListProductsResponse.

(** What [JSON.stringify] makes of the response object before it writes the
    text: absent properties are skipped, a number that is not finite becomes
    [null], a Date becomes its [toJSON()], the ISO string or [null]. *)
Definition member {A} (key : string) (f : A -> json) (field : option A)
  : list (string * json) :=
  match field with
  | Some a => [(key, f a)]
  | None => []
  end.

Definition json_of_number (n : number) : json :=
  match n with
  | Finite _ => JNumber n
  | _ => JNull
  end.

Definition json_of_Date (d : Date) : json :=
  match d with
  | Instant tv => JString (iso_string tv)
  | InvalidDate => JNull
  end.

Definition json_of_Product (p : Product) : json :=
  JObject
    ([("id", JString (Product.id p));
      ("name", JString (Product.name p));
      ("price", json_of_number (Product.price p));
      ("category", JString (Product.category p))]
     ++ member "description" JString (Product.description p)
     ++ [("inStock", JBool (Product.inStock p));
         ("createdAt", json_of_Date (Product.createdAt p))]).

Definition json_of_ErrorBody (e : ListProductsResponse.ErrorBody) : json :=
  JObject [("code", JString (ListProductsResponse.code e));
           ("message", JString (ListProductsResponse.message e))].

Definition json_of_Metadata (m : ListProductsResponse.Metadata) : json :=
  JObject [("count", json_of_number (ListProductsResponse.count m));
           ("timestamp", JString (ListProductsResponse.timestamp m))].

Definition json_of_response (r : ListProductsResponse) : json :=
  JObject
    ([("success", JBool (ListProductsResponse.success r))]
     ++ member "data" (fun ps => JArray (map json_of_Product ps))
          (ListProductsResponse.data r)
     ++ member "error" json_of_ErrorBody (ListProductsResponse.error r)
     ++ member "metadata" json_of_Metadata (ListProductsResponse.metadata r)).

(** [JSON.stringify(response, null, indent)] *)
Definition JSON_stringify `{Host} (r : ListProductsResponse) (indent : Z)
  : string :=
  SerializeJSON (json_of_response r) indent.

Section ListProducts.
Context `{Host}.

(** [productRepo] is the repository the module builds when it is loaded;
    the handler has it in scope. *)
Definition listProductsHttp (productRepo : ProductRepo)
    (request : HttpRequest) (context : InvocationContext)
  : effect HttpResponseInit :=
  _ ← context_log
        [Prim (Str "HTTP trigger function processed a request to list products")];
  try_catch_effect
    (created1 ← new_Date;
     created2 ← new_Date;
     let mockProducts : list Product :=
       [ {| Product.id := "PROD-001";
            Product.name := "Sample Product 1";
            Product.price := Finite (9999 # 100);
            Product.category := "Electronics";
            Product.description := Some "A sample product for demonstration";
            Product.inStock := true;
            Product.createdAt := created1 |};
         {| Product.id := "PROD-002";
            Product.name := "Sample Product 2";
            Product.price := Finite (4999 # 100);
            Product.category := "Accessories";
            Product.description := None;
            Product.inStock := false;
            Product.createdAt := created2 |} ] in
     now ← new_Date;
     timestamp ← lift (toISOString now);
     let response : ListProductsResponse :=
       {| ListProductsResponse.success := true;
          ListProductsResponse.data := Some mockProducts;
          ListProductsResponse.error := None;
          ListProductsResponse.metadata := Some
            {| ListProductsResponse.count := of_nat (length mockProducts);
               ListProductsResponse.timestamp := timestamp |} |} in
     mret {|
       status := 200;
       headers := {[ "Content-Type" := "application/json";
                     "Cache-Control" := "no-cache" ]};
       body := JSON_stringify response 2;
     |})
    (fun error =>
       _ ← context_log [Prim (Str "Error listing products:"); error];
       let errorResponse : ListProductsResponse :=
         {| ListProductsResponse.success := false;
            ListProductsResponse.data := None;
            ListProductsResponse.error := Some
              {| ListProductsResponse.code := "INTERNAL_ERROR";
                 ListProductsResponse.message :=
                   "An unexpected error occurred while listing products" |};
            ListProductsResponse.metadata := None |} in
       mret {|
         status := 500;
         headers := {[ "Content-Type" := "application/json" ]};
         body := JSON_stringify errorResponse 2;
       |}).

End ListProducts.

(** ** The statements' vocabulary *)

(** The error-translation policy in the specification's words: four
    branches, tried in order, and a message that is passed through or
    replaced by a fallback.  These definitions are compared with
    [mapCosmosError]; they are not read off it. *)
Module Policy.

Inductive branch : Type :=
  | Conflict
  | Missing
  | ClientError
  | Otherwise.

Definition is_409 (code : primitive) : bool :=
  IsStrictlyEqual code (Num (of_Z 409)).
Definition is_404 (code : primitive) : bool :=
  IsStrictlyEqual code (Num (of_Z 404)).
Definition is_4xx `{Host} (code : primitive) : bool :=
  greater_or_equal code (Num (of_Z 400)) && less_than code (Num (of_Z 500)).

(** First match wins. *)
Definition applies `{Host} (b : branch) (code : primitive) : Prop :=
  match b with
  | Conflict => is_409 code = true
  | Missing => is_409 code = false /\ is_404 code = true
  | ClientError =>
      is_409 code = false /\ is_404 code = false /\ is_4xx code = true
  | Otherwise =>
      is_409 code = false /\ is_404 code = false /\ is_4xx code = false
  end.

(** The branch the policy reaches, computed. *)
Definition first_match `{Host} (code : primitive) : branch :=
  if is_409 code then Conflict
  else if is_404 code then Missing
  else if is_4xx code then ClientError
  else Otherwise.

(** The same policy read on an integral status code. *)
Definition branch_of_status (status : Z) : branch :=
  if status =? 409 then Conflict
  else if status =? 404 then Missing
  else if (400 <=? status) && (status <? 500) then ClientError
  else Otherwise.

(** "Falling back when absent", and what [||] does: falling back when
    falsy. *)
Definition when_absent (message : primitive) (fallback : string) : primitive :=
  match message with
  | Undefined => Str fallback
  | _ => message
  end.
Definition when_falsy (message : primitive) (fallback : string) : primitive :=
  if ToBoolean message then message else Str fallback.

Definition outcome (rule : primitive -> string -> primitive)
    (b : branch) (message : primitive) : RepositoryError :=
  match b with
  | Conflict =>
      {| RepositoryError.code := ALREADY_EXISTS;
         RepositoryError.message := Str "A product with this ID already exists" |}
  | Missing =>
      {| RepositoryError.code := NOT_FOUND;
         RepositoryError.message := Str "Product not found" |}
  | ClientError =>
      {| RepositoryError.code := VALIDATION_ERROR;
         RepositoryError.message := rule message "Invalid request" |}
  | Otherwise =>
      {| RepositoryError.code := PERSISTENCE_ERROR;
         RepositoryError.message :=
           rule message "An error occurred while accessing the database" |}
  end.

End Policy.

(** A date that [TimeClip] lets through, and a product that carries one. *)
Definition valid_Date (d : Date) : Prop :=
  match d with
  | Instant tv => - maxTime <= tv <= maxTime
  | InvalidDate => False
  end.
Definition valid_Product (p : Product) : Prop :=
  valid_Date (Product.createdAt p).

(** Two documents that agree on the domain fields. *)
Definition same_domain_fields (a b : ProductDocument) : Prop :=
  ProductDocument.id a = ProductDocument.id b
  /\ ProductDocument.name a = ProductDocument.name b
  /\ ProductDocument.price a = ProductDocument.price b
  /\ ProductDocument.category a = ProductDocument.category b
  /\ ProductDocument.description a = ProductDocument.description b
  /\ ProductDocument.inStock a = ProductDocument.inStock b
  /\ ProductDocument.createdAt a = ProductDocument.createdAt b.

Definition no_storage_metadata (d : ProductDocument) : Prop :=
  ProductDocument._rid d = None
  /\ ProductDocument._self d = None
  /\ ProductDocument._etag d = None
  /\ ProductDocument._attachments d = None
  /\ ProductDocument._ts d = None.

(** A result with exactly one variant populated. *)
Definition exactly_one_variant {T} (r : RepositoryResult T) : Prop :=
  (RepositoryResult.success r = true
   /\ is_Some (RepositoryResult.data r)
   /\ RepositoryResult.error r = None)
  \/ (RepositoryResult.success r = false
      /\ RepositoryResult.data r = None
      /\ is_Some (RepositoryResult.error r)).

(** The two sample products, stamped with the moments they were built. *)
Definition sample_products (created1 created2 : Date) : list Product :=
  [ {| Product.id := "PROD-001";
       Product.name := "Sample Product 1";
       Product.price := Finite (9999 # 100);
       Product.category := "Electronics";
       Product.description := Some "A sample product for demonstration";
       Product.inStock := true;
       Product.createdAt := created1 |};
    {| Product.id := "PROD-002";
       Product.name := "Sample Product 2";
       Product.price := Finite (4999 # 100);
       Product.category := "Accessories";
       Product.description := None;
       Product.inStock := false;
       Product.createdAt := created2 |} ].

(** [null] and [undefined], the values without properties. *)
Definition nullish (v : value) : Prop := v = Prim Undefined \/ v = Prim Null.

(** The clock reading that becomes the response's timestamp (the third of
    an invocation) is a time a Date can hold. *)
Definition timestamp_in_range (w : World) : Prop :=
  - maxTime <= ticks w (S (S (reads w))) <= maxTime.

(** The two envelopes of the list endpoint. *)
Definition success_envelope (created1 created2 : Date) (timestamp : string)
  : ListProductsResponse :=
  let products := sample_products created1 created2 in
  {| ListProductsResponse.success := true;
     ListProductsResponse.data := Some products;
     ListProductsResponse.error := None;
     ListProductsResponse.metadata := Some
       {| ListProductsResponse.count := of_nat (length products);
          ListProductsResponse.timestamp := timestamp |} |}.

Definition error_envelope : ListProductsResponse :=
  {| ListProductsResponse.success := false;
     ListProductsResponse.data := None;
     ListProductsResponse.error := Some
       {| ListProductsResponse.code := "INTERNAL_ERROR";
          ListProductsResponse.message :=
            "An unexpected error occurred while listing products" |};
     ListProductsResponse.metadata := None |}.

(** ** Concrete inputs

    The theorems below hold for every host.  Where a statement is
    instantiated at a concrete input, this host is used: it takes no string
    for a number, knows no further date format and writes no JSON text.
    None of the instances depends on these choices. *)
Definition bare_host : Host := {|
  StringToNumber := fun _ => NaN;
  DateParseOther := fun _ => None;
  SerializeJSON := fun _ _ => "";
|}.

(** A container whose every call ends the same way. *)
Definition container_answering
    (answer : completion (Cosmos.ItemResponse ProductDocument))
  : Cosmos.Container ProductDocument :=
  {| Cosmos.items := {| Cosmos.create := fun _ _ => answer |};
     Cosmos.item := fun _ _ => {| Cosmos.read := answer |} |}.

(** A container that finds a document only under (id, partition key) =
    ([key], [key]). *)
Definition container_holding (key : string) (document : ProductDocument)
  : Cosmos.Container ProductDocument :=
  {| Cosmos.items :=
       {| Cosmos.create := fun _ _ => Normal {| Cosmos.resource := None |} |};
     Cosmos.item := fun id partitionKey =>
       {| Cosmos.read :=
            Normal {| Cosmos.resource :=
              if String.eqb id key && String.eqb partitionKey key
              then Some document else None |} |} |}.

Definition repo_over (c : Cosmos.Container ProductDocument)
  : CosmosProductRepo.CosmosProductRepo :=
  {| CosmosProductRepo.container := c |}.

Definition laptop : Product :=
  {| Product.id := "PROD-100";
     Product.name := "Laptop";
     Product.price := Finite (129900 # 100);
     Product.category := "Electronics";
     Product.description := None;
     Product.inStock := true;
     Product.createdAt := Instant 1700000000123 |}.

(** The same product with a date that is no date. *)
Definition undated_laptop : Product :=
  {| Product.id := "PROD-100";
     Product.name := "Laptop";
     Product.price := Finite (129900 # 100);
     Product.category := "Electronics";
     Product.description := None;
     Product.inStock := true;
     Product.createdAt := InvalidDate |}.

(** The document [toDocument] makes of it. *)
Definition laptop_document : ProductDocument :=
  {| ProductDocument.id := "PROD-100";
     ProductDocument.name := "Laptop";
     ProductDocument.price := Finite (129900 # 100);
     ProductDocument.category := "Electronics";
     ProductDocument.description := None;
     ProductDocument.inStock := true;
     ProductDocument.createdAt := "2023-11-14T22:13:20.123Z";
     ProductDocument._rid := None;
     ProductDocument._self := None;
     ProductDocument._etag := None;
     ProductDocument._attachments := None;
     ProductDocument._ts := None |}.

(** What the store might hand back for it: the name changed by the store,
    and the system properties filled in. *)
Definition stored_laptop : ProductDocument :=
  {| ProductDocument.id := "PROD-100";
     ProductDocument.name := "Laptop (stored)";
     ProductDocument.price := Finite (129900 # 100);
     ProductDocument.category := "Electronics";
     ProductDocument.description := None;
     ProductDocument.inStock := true;
     ProductDocument.createdAt := "2023-11-14T22:13:20.123Z";
     ProductDocument._rid := Some "d9RzAJRFKgwBAAAAAAAAAA==";
     ProductDocument._self := Some "dbs/d9RzAA==/colls/d9RzAJRFKgw=/docs/d9RzAJRFKgwBAAAAAAAAAA==/";
     ProductDocument._etag := Some "0000d986-0000-0000-0000-5a1a7a6b0000";
     ProductDocument._attachments := Some "attachments/";
     ProductDocument._ts := Some (of_Z 1700000001) |}.

Definition stored_laptop_bare : ProductDocument :=
  {| ProductDocument.id := "PROD-100";
     ProductDocument.name := "Laptop (stored)";
     ProductDocument.price := Finite (129900 # 100);
     ProductDocument.category := "Electronics";
     ProductDocument.description := None;
     ProductDocument.inStock := true;
     ProductDocument.createdAt := "2023-11-14T22:13:20.123Z";
     ProductDocument._rid := None;
     ProductDocument._self := None;
     ProductDocument._etag := None;
     ProductDocument._attachments := None;
     ProductDocument._ts := None |}.

(** Failures a store call may be rejected with. *)
Definition conflict_failure : value :=
  Object {[ "code" := Num (of_Z 409); "message" := Str "Entity with the specified id already exists in the system." ]}.
Definition empty_message_400 : gmap string primitive :=
  {[ "code" := Num (of_Z 400); "message" := Str "" ]}.
Definition empty_message_503 : gmap string primitive :=
  {[ "code" := Num (of_Z 503); "message" := Str "" ]}.

(** A repository whose store rejects every call with [null]. *)
Definition a_repo : ProductRepo :=
  CosmosProductRepo.as_ProductRepo (H := bare_host)
    (repo_over (container_answering (Throw (Prim Null)))).
(** A world whose clock starts on 14 November 2023 and advances a
    millisecond per reading. *)
Definition a_world : World :=
  {| ticks := fun n => 1700000000000 + Z.of_nat n; reads := 0; logged := [] |}.
(** A world whose clock has run past the last time a Date can hold. *)
Definition a_late_world : World :=
  {| ticks := fun n => maxTime + 1 + Z.of_nat n; reads := 0; logged := [] |}.
Definition a_request : HttpRequest :=
  {| method := "GET"; url := "http://localhost:7071/api/products" |}.
Definition a_context : InvocationContext :=
  {| invocationId := "0"; functionName := "listProducts" |}.

(** ** Construction and configuration

    The rest of the two files: the constructor of [CosmosProductRepo] and
    the module-level options and repository of the list-products function. *)

Module CosmosProductRepoOptions.
Record CosmosProductRepoOptions : Type := {
  endpoint : string;
  databaseId : string;
  containerId : string;
  key : option string;
}.
End CosmosProductRepoOptions.
Abbreviation CosmosProductRepoOptions :=
  CosmosProductRepoOptions.CosmosProductRepoOptions.

(** The object handed to [new CosmosClient(...)]: [{endpoint, key}] or
    [{endpoint}]. *)
Module CosmosClientOptions.
Record CosmosClientOptions : Type := {
  endpoint : string;
  key : option string;
}.
End CosmosClientOptions.
Abbreviation CosmosClientOptions := CosmosClientOptions.CosmosClientOptions.

(** What the constructor uses of [@azure/cosmos]: [new CosmosClient(options)],
    [client.database(id)] and [database.container(id)].  Each may throw. *)
Module SDK.
Class CosmosSDK : Type := {
  Client : Type;
  Database : Type;
  CosmosClient : CosmosClientOptions -> completion Client;
  database : Client -> string -> completion Database;
  container :
    Database -> string -> completion (Cosmos.Container ProductDocument);
}.
End SDK.

(** [constructor(options: CosmosProductRepoOptions)] *)
Definition new_CosmosProductRepo `{SDK.CosmosSDK}
    (options : CosmosProductRepoOptions)
  : completion CosmosProductRepo.CosmosProductRepo :=
  cosmosClient ←
    match CosmosProductRepoOptions.key options with
    | Some key =>
        if ToBoolean (Str key) then
          SDK.CosmosClient {|
            CosmosClientOptions.endpoint :=
              CosmosProductRepoOptions.endpoint options;
            CosmosClientOptions.key := Some key |}
        else
          SDK.CosmosClient {|
            CosmosClientOptions.endpoint :=
              CosmosProductRepoOptions.endpoint options;
            CosmosClientOptions.key := None |}
    | None =>
        SDK.CosmosClient {|
          CosmosClientOptions.endpoint :=
            CosmosProductRepoOptions.endpoint options;
          CosmosClientOptions.key := None |}
    end;
  database ← SDK.database cosmosClient
               (CosmosProductRepoOptions.databaseId options);
  container ← SDK.container database
                (CosmosProductRepoOptions.containerId options);
  mret {| CosmosProductRepo.container := container |}.

(** [process.env.NAME || fallback]: an environment variable is a string or
    is not set. *)
Definition env_or (value : option string) (fallback : string) : string :=
  match value with
  | Some s => if ToBoolean (Str s) then s else fallback
  | None => fallback
  end.

(** [const cosmosOptions = {...}] of the list-products module, for the
    environment [process.env]. *)
Definition cosmosOptions (env : gmap string string) : CosmosProductRepoOptions :=
  {| CosmosProductRepoOptions.endpoint :=
       env_or (env !! "COSMOS_ENDPOINT") "https://localhost:8081";
     CosmosProductRepoOptions.databaseId :=
       env_or (env !! "COSMOS_DATABASE") "ProductsDB";
     CosmosProductRepoOptions.containerId :=
       env_or (env !! "COSMOS_CONTAINER") "Products";
     CosmosProductRepoOptions.key := env !! "COSMOS_KEY" |}.

(** [const productRepo: ProductRepo = new CosmosProductRepo(cosmosOptions)] *)
Definition productRepo `{Host} `{SDK.CosmosSDK} (env : gmap string string)
  : completion ProductRepo :=
  repo ← new_CosmosProductRepo (cosmosOptions env);
  mret (CosmosProductRepo.as_ProductRepo repo).

(** ** More vocabulary and inputs *)

(** A code that is no numeric code at all: absent, [null], a boolean, not a
    number, or text that spells no number (as ECONNREFUSED and the other
    codes of network errors do). *)
Definition no_numeric_code `{Host} (code : primitive) : Prop :=
  match code with
  | Undefined | Null | Bool _ => True
  | Num n => n = NaN
  | Str s => StringToNumber s = NaN
  end.

(** A message that is a string or is absent. *)
Definition textual (message : primitive) : Prop :=
  match message with
  | Undefined | Str _ => True
  | _ => False
  end.

(** An environment variable that is not set, or set to the empty string. *)
Definition unset_or_empty (value : option string) : Prop :=
  value = None \/ value = Some "".

(** The client options of a repository built without a key. *)
Definition keyless (options : CosmosProductRepoOptions) : CosmosClientOptions :=
  {| CosmosClientOptions.endpoint := CosmosProductRepoOptions.endpoint options;
     CosmosClientOptions.key := None |}.

(** A host that converts a string of decimal digits to the number it
    spells, as StringToNumber does (the empty string is 0), and takes every
    other string for no number. *)
Fixpoint decimal_value (acc : Z) (s : string) : option Z :=
  match s with
  | EmptyString => Some acc
  | String c rest => d ← digit_value c; decimal_value (10 * acc + d) rest
  end.

Definition decimal_host : Host := {|
  StringToNumber := fun s =>
    match decimal_value 0 s with
    | Some z => of_Z z
    | None => NaN
    end;
  DateParseOther := fun _ => None;
  SerializeJSON := fun _ _ => "";
|}.

(** An SDK whose client remembers the options it was built with and whose
    containers are empty under every name. *)
Definition a_sdk : SDK.CosmosSDK := {|
  SDK.Client := CosmosClientOptions;
  SDK.Database := CosmosClientOptions * string;
  SDK.CosmosClient := fun options => Normal options;
  SDK.database := fun client id => Normal (client, id);
  SDK.container := fun _ _ =>
    Normal (container_answering (Normal {| Cosmos.resource := None |}));
|}.

(** A failure whose status code arrived as text. *)
Definition textual_404 : gmap string primitive :=
  {[ "code" := Str "404"; "message" := Str "Resource Not Found" ]}.

(** What a store answers when the container it is asked for is not there. *)
Definition missing_container_failure : gmap string primitive :=
  {[ "code" := Num (of_Z 404); "message" := Str "Resource Not Found" ]}.

(** The laptop's document as a store echoes it, system properties added. *)
Definition laptop_echo : ProductDocument :=
  {| ProductDocument.id := "PROD-100";
     ProductDocument.name := "Laptop";
     ProductDocument.price := Finite (129900 # 100);
     ProductDocument.category := "Electronics";
     ProductDocument.description := None;
     ProductDocument.inStock := true;
     ProductDocument.createdAt := "2023-11-14T22:13:20.123Z";
     ProductDocument._rid := Some "d9RzAJRFKgwBAAAAAAAAAA==";
     ProductDocument._self := None;
     ProductDocument._etag := Some "0000d986-0000-0000-0000-5a1a7a6b0000";
     ProductDocument._attachments := None;
     ProductDocument._ts := Some (of_Z 1700000001) |}.

(** A stored document whose [createdAt] uses the expanded-year form, and
    one whose [createdAt] is no date at all. *)
Definition laptop_expanded_year : ProductDocument :=
  {| ProductDocument.id := "PROD-100";
     ProductDocument.name := "Laptop";
     ProductDocument.price := Finite (129900 # 100);
     ProductDocument.category := "Electronics";
     ProductDocument.description := None;
     ProductDocument.inStock := true;
     ProductDocument.createdAt := "+002023-11-14T22:13:20.123Z";
     ProductDocument._rid := None;
     ProductDocument._self := None;
     ProductDocument._etag := Some "0000d986-0000-0000-0000-5a1a7a6b0000";
     ProductDocument._attachments := None;
     ProductDocument._ts := None |}.

Definition laptop_undated : ProductDocument :=
  {| ProductDocument.id := "PROD-100";
     ProductDocument.name := "Laptop";
     ProductDocument.price := Finite (129900 # 100);
     ProductDocument.category := "Electronics";
     ProductDocument.description := None;
     ProductDocument.inStock := true;
     ProductDocument.createdAt := "last Tuesday";
     ProductDocument._rid := None;
     ProductDocument._self := None;
     ProductDocument._etag := None;
     ProductDocument._attachments := None;
     ProductDocument._ts := None |}.

(** A container that inserts only when asked to generate an id itself, and
    otherwise reports a conflict. *)
Definition container_generating_ids : Cosmos.Container ProductDocument :=
  {| Cosmos.items :=
       {| Cosmos.create := fun document options =>
            if Cosmos.disableAutomaticIdGeneration options
            then Throw conflict_failure
            else Normal {| Cosmos.resource := Some document |} |};
     Cosmos.item := fun _ _ =>
       {| Cosmos.read := Normal {| Cosmos.resource := Some stored_laptop |} |} |}.

(** Options that carry a key. *)
Definition options_with_key : CosmosProductRepoOptions :=
  {| CosmosProductRepoOptions.endpoint :=
       "https://catalogue.documents.azure.com:443/";
     CosmosProductRepoOptions.databaseId := "ProductsDB";
     CosmosProductRepoOptions.containerId := "Products";
     CosmosProductRepoOptions.key := Some "c2VjcmV0" |}.

(** A network failure, as Node.js reports one. *)
Definition network_failure : gmap string primitive :=
  {[ "code" := Str "ECONNREFUSED";
     "message" := Str "connect ECONNREFUSED 127.0.0.1:8081" ]}.

(** A world whose clock starts on 15 January 2027. *)
Definition a_later_world : World :=
  {| ticks := fun n => 1800000000000 + Z.of_nat n; reads := 0; logged := [] |}.

(** The list endpoint's payload as the specification words it: one fixed
    list of products is the [data] of every success response. *)
Definition fixed_payload_as_claimed : Prop :=
  exists fixed : list Product,
    forall (host : Host) (productRepo : ProductRepo)
           (request : HttpRequest) (context : InvocationContext) (w : World),
      timestamp_in_range w ->
      exists w' timestamp,
        listProductsHttp productRepo request context w
        = (Normal {|
             status := 200;
             headers := {[ "Content-Type" := "application/json";
                           "Cache-Control" := "no-cache" ]};
             body := JSON_stringify
               {| ListProductsResponse.success := true;
                  ListProductsResponse.data := Some fixed;
                  ListProductsResponse.error := None;
                  ListProductsResponse.metadata := Some
                    {| ListProductsResponse.count := of_nat (length fixed);
                       ListProductsResponse.timestamp := timestamp |} |} 2;
           |}, w').

(** A host whose serializer writes the strings of the [data] member of a
    tree, one after another: enough to tell two payloads apart. *)
Fixpoint strings_of (j : json) : string :=
  match j with
  | JString s => s
  | JArray items =>
      (fix all (l : list json) : string :=
         match l with
         | [] => ""
         | item :: rest => strings_of item +:+ all rest
         end) items
  | JObject members =>
      (fix all (l : list (string * json)) : string :=
         match l with
         | [] => ""
         | (_, item) :: rest => strings_of item +:+ all rest
         end) members
  | _ => ""
  end.

Definition data_member (j : json) : json :=
  match j with
  | JObject members =>
      match List.find (fun m => String.eqb (fst m) "data") members with
      | Some (_, item) => item
      | None => JNull
      end
  | _ => JNull
  end.

Definition data_host : Host := {|
  StringToNumber := fun _ => NaN;
  DateParseOther := fun _ => None;
  SerializeJSON := fun tree _ => strings_of (data_member tree);
|}.

(** An environment that sets the key to the empty string. *)
Definition env_with_empty_key : gmap string string :=
  {[ "COSMOS_ENDPOINT" := "https://catalogue.documents.azure.com:443/";
     "COSMOS_DATABASE" := "";
     "COSMOS_KEY" := "" ]}.

(** * Properties *)

Import CosmosProductRepo Policy.

Ltac euclid := Z.div_mod_to_equations; lia.

(** ** Calendar arithmetic *)

Section DateFacts.

Lemma DayFromYear_succ y : DayFromYear (y + 1) = DayFromYear y + DaysInYear y.
Proof.
  unfold DayFromYear, DaysInYear, is_leap.
  repeat match goal with
         | |- context [?a =? ?b] => destruct (Z.eqb_spec a b); cbn [negb]
         end; euclid.
Qed.

Lemma year_of_day_spec d :
  DayFromYear (year_of_day d) <= d < DayFromYear (year_of_day d + 1).
Proof.
  unfold year_of_day.
  set (y := 1970 + 400 * d / 146097).
  destruct (Z.ltb_spec d (DayFromYear y)).
  - unfold DayFromYear in *. subst y. euclid.
  - destruct (Z.leb_spec (DayFromYear (y + 1)) d).
    + unfold DayFromYear in *. subst y. euclid.
    + lia.
Qed.

(** [YearFromTime] is what ECMA-262 asks for: the largest year that starts
    at or before the time. *)
Lemma YearFromTime_largest t :
  TimeFromYear (YearFromTime t) <= t
  /\ forall y, TimeFromYear y <= t -> y <= YearFromTime t.
Proof.
  unfold TimeFromYear, YearFromTime.
  pose proof (year_of_day_spec (Day t)) as [Hlo Hhi].
  split.
  - unfold Day, msPerDay in *. euclid.
  - intros y Hy.
    assert (DayFromYear y <= Day t) as Hd by (unfold Day, msPerDay in *; euclid).
    destruct (Z.le_gt_cases y (year_of_day (Day t))) as [Hle | Hgt]; [exact Hle |].
    exfalso. unfold DayFromYear in Hhi, Hd. euclid.
Qed.

Lemma year_of_day_range d :
  -100000000 <= d <= 100000000 -> -271821 <= year_of_day d <= 275760.
Proof.
  intros Hd. pose proof (year_of_day_spec d) as Hy.
  unfold DayFromYear in Hy. euclid.
Qed.

Lemma DayWithinYear_range t :
  0 <= DayWithinYear t < DaysInYear (YearFromTime t).
Proof.
  unfold DayWithinYear, YearFromTime.
  pose proof (year_of_day_spec (Day t)) as Hy.
  rewrite DayFromYear_succ in Hy. lia.
Qed.

Lemma month_of_day_spec (dwy : Z) (leap : bool) :
  0 <= dwy < (if leap then 366 else 365) ->
  let m := month_of_day dwy leap in
  0 <= m <= 11 /\ month_start m leap <= dwy < month_start (m + 1) leap.
Proof.
  intros Hd. unfold month_of_day.
  repeat match goal with
         | |- context [?a <? ?b] => destruct (Z.ltb_spec a b)
         end; destruct leap; cbn in *;
  repeat match goal with
         | |- context [month_start ?a ?b] =>
             let v := eval vm_compute in (month_start a b) in
             change (month_start a b) with v
         end; lia.
Qed.

Lemma time_fields t :
  0 <= HourFromTime t <= 23 /\ 0 <= MinFromTime t <= 59
  /\ 0 <= SecFromTime t <= 59 /\ 0 <= msFromTime t <= 999
  /\ MakeTime (HourFromTime t) (MinFromTime t) (SecFromTime t) (msFromTime t)
     = TimeWithinDay t.
Proof.
  unfold HourFromTime, MinFromTime, SecFromTime, msFromTime, MakeTime,
    TimeWithinDay, msPerHour, msPerMinute, msPerSecond, msPerDay.
  euclid.
Qed.

Lemma date_fields t :
  0 <= MonthFromTime t <= 11
  /\ 1 <= DateFromTime t <= DaysInMonth (MonthFromTime t) (InLeapYear t)
  /\ MakeDay (YearFromTime t) (MonthFromTime t) (DateFromTime t) = Day t.
Proof.
  pose proof (DayWithinYear_range t) as Hd.
  pose proof (month_of_day_spec (DayWithinYear t) (InLeapYear t)) as Hm.
  unfold DaysInYear in Hd. fold (InLeapYear t) in Hd.
  specialize (Hm Hd). cbv zeta in Hm. fold (MonthFromTime t) in Hm.
  destruct Hm as [Hm Hs].
  unfold DateFromTime, DaysInMonth, MakeDay.
  generalize dependent (MonthFromTime t). intros m Hm Hs.
  replace (m / 12) with 0 by euclid.
  replace (m mod 12) with m by euclid.
  rewrite Z.add_0_r. fold (InLeapYear t).
  unfold DayWithinYear in *. lia.
Qed.

Lemma DaysInMonth_le_31 m leap : 0 <= m <= 11 -> DaysInMonth m leap <= 31.
Proof.
  intros Hm. unfold DaysInMonth.
  assert (m = 0 \/ m = 1 \/ m = 2 \/ m = 3 \/ m = 4 \/ m = 5 \/ m = 6 \/ m = 7
          \/ m = 8 \/ m = 9 \/ m = 10 \/ m = 11) as Hc by lia.
  repeat (destruct Hc as [-> | Hc];
          [destruct leap; vm_compute; discriminate |]).
  subst m. destruct leap; vm_compute; discriminate.
Qed.

Lemma Day_range t :
  - maxTime <= t <= maxTime -> -100000000 <= Day t <= 100000000.
Proof. unfold Day, maxTime, msPerDay. euclid. Qed.

(** *** Digits written and read back *)

Lemma digit_value_digit d : 0 <= d <= 9 -> digit_value (digit d) = Some d.
Proof.
  intros Hd.
  assert (d = 0 \/ d = 1 \/ d = 2 \/ d = 3 \/ d = 4 \/ d = 5 \/ d = 6 \/ d = 7
          \/ d = 8 \/ d = 9) as Hc by lia.
  repeat (destruct Hc as [-> | Hc]; [reflexivity |]). subst d. reflexivity.
Qed.

Lemma read2_digits2 n k : 0 <= n < 100 -> read2 (digits2 n k) = Some (n, k).
Proof.
  intros Hn. unfold read2, digits2.
  rewrite !digit_value_digit by euclid. cbn [mbind option_bind].
  f_equal. f_equal. euclid.
Qed.

Lemma read3_digits3 n k : 0 <= n < 1000 -> read3 (digits3 n k) = Some (n, k).
Proof.
  intros Hn. unfold read3, digits3.
  rewrite digit_value_digit by euclid. cbn [mbind option_bind].
  rewrite read2_digits2 by euclid. cbn [mbind option_bind].
  f_equal. f_equal. euclid.
Qed.

Lemma read4_digits4 n k : 0 <= n < 10000 -> read4 (digits4 n k) = Some (n, k).
Proof.
  intros Hn. unfold read4, digits4.
  rewrite read2_digits2 by euclid. cbn [mbind option_bind].
  rewrite read2_digits2 by euclid. cbn [mbind option_bind].
  f_equal. f_equal. euclid.
Qed.

Lemma read6_digits6 n k : 0 <= n < 1000000 -> read6 (digits6 n k) = Some (n, k).
Proof.
  intros Hn. unfold read6, digits6.
  rewrite read2_digits2 by euclid. cbn [mbind option_bind].
  rewrite read4_digits4 by euclid. cbn [mbind option_bind].
  f_equal. f_equal. euclid.
Qed.

(** A digit is no sign: a year that starts with one is a four-digit year. *)
Lemma read_year_digit d k :
  0 <= d <= 9 -> read_year (String (digit d) k) = read4 (String (digit d) k).
Proof.
  intros Hd.
  assert (d = 0 \/ d = 1 \/ d = 2 \/ d = 3 \/ d = 4 \/ d = 5 \/ d = 6 \/ d = 7
          \/ d = 8 \/ d = 9) as Hc by lia.
  repeat (destruct Hc as [-> | Hc]; [reflexivity |]). subst d. reflexivity.
Qed.

Lemma read_year_year_digits y k :
  -999999 <= y <= 999999 -> read_year (year_digits y k) = Some (y, k).
Proof.
  intros Hy. unfold year_digits.
  destruct (Z.leb_spec 0 y); cbn [andb].
  - destruct (Z.leb_spec y 9999).
    + pose proof (read4_digits4 y k) as H4.
      unfold digits4, digits2 in *. rewrite read_year_digit by euclid.
      apply H4. lia.
    + destruct (Z.ltb_spec y 0); [lia |].
      cbn [read_year]. apply read6_digits6. lia.
  - destruct (Z.ltb_spec y 0); [| lia].
    cbn [read_year]. rewrite read6_digits6 by lia. cbn [mbind option_bind].
    destruct (Z.eqb_spec (- y) 0); [lia |]. f_equal. f_equal. lia.
Qed.

(** Reading what [toISOString] wrote gives the time value back. *)
Lemma parse_iso_string tv :
  - maxTime <= tv <= maxTime -> parse_complete_utc (iso_string tv) = Some tv.
Proof.
  intros Htv.
  pose proof (year_of_day_range _ (Day_range _ Htv)) as Hy.
  fold (YearFromTime tv) in Hy.
  destruct (time_fields tv) as (Hh & Hmi & Hs & Hms & Htime).
  destruct (date_fields tv) as (Hm & Hd & Hday).
  pose proof (DaysInMonth_le_31 _ (InLeapYear tv) Hm) as H31.
  unfold parse_complete_utc, iso_string.
  rewrite read_year_year_digits by lia.
  cbn [mbind option_bind expect Ascii.eqb Bool.eqb].
  do 5 (rewrite read2_digits2 by lia;
        cbn [mbind option_bind expect Ascii.eqb Bool.eqb]).
  rewrite read3_digits3 by lia.
  cbn [mbind option_bind expect Ascii.eqb Bool.eqb].
  replace (MonthFromTime tv + 1 - 1) with (MonthFromTime tv) by lia.
  fold (InLeapYear tv).
  repeat match goal with
         | |- context [?a <=? ?b] =>
             destruct (Z.leb_spec a b); [| lia]
         end.
  cbn [String.eqb andb]. f_equal.
  rewrite Hday, Htime. unfold MakeDate, Day, TimeWithinDay, msPerDay. euclid.
Qed.

Lemma from_clock_in_range t :
  - maxTime <= t <= maxTime -> from_clock t = Instant t.
Proof.
  intros Ht. unfold from_clock, TimeClip.
  destruct (Z.leb_spec (Z.abs t) maxTime); [reflexivity | lia].
Qed.

End DateFacts.

(** ** The error translator *)

Section Translator.
Context `{Host}.

Lemma Qeq_bool_inject_Z a b : Qeq_bool (inject_Z a) (inject_Z b) = (a =? b).
Proof. unfold Qeq_bool, inject_Z. cbn. now rewrite !Z.mul_1_r. Qed.

Lemma Qle_bool_inject_Z a b : Qle_bool (inject_Z a) (inject_Z b) = (a <=? b).
Proof. unfold Qle_bool, inject_Z. cbn. now rewrite !Z.mul_1_r. Qed.

(** A number equal to a status between 400 and 499 passes both
    comparisons of the range test. *)
Lemma Number_equal_of_Z_4xx n z :
  400 <= z < 500 -> Number_equal n (of_Z z) = true ->
  Number_lessThan n (of_Z 400) = Some false
  /\ Number_lessThan n (of_Z 500) = Some true.
Proof.
  intros Hz. destruct n as [| s | q]; cbn; try discriminate.
  intros Hq. apply Qeq_bool_iff in Hq.
  split; f_equal.
  - apply negb_false_iff, Qle_bool_iff. rewrite Hq.
    unfold Qle, inject_Z; cbn. lia.
  - apply negb_true_iff. apply not_true_iff_false. rewrite Qle_bool_iff, Hq.
    unfold Qle, inject_Z; cbn. lia.
Qed.

Lemma strict_equal_4xx code z :
  400 <= z < 500 -> IsStrictlyEqual code (Num (of_Z z)) = true ->
  is_4xx code = true.
Proof.
  intros Hz Heq. destruct code as [| | b | n | s]; try discriminate.
  cbn in Heq. destruct (Number_equal_of_Z_4xx n z Hz Heq) as [Hge Hlt].
  unfold is_4xx, greater_or_equal, less_than, IsLessThan, ToNumber.
  now rewrite Hge, Hlt.
Qed.

(** Why the order of the branches matters: 409 and 404 are in the 4xx range
    too. *)
Lemma is_409_4xx code : is_409 code = true -> is_4xx code = true.
Proof. apply strict_equal_4xx. lia. Qed.

Lemma is_404_4xx code : is_404 code = true -> is_4xx code = true.
Proof. apply strict_equal_4xx. lia. Qed.

Lemma not_4xx_neither code :
  is_4xx code = false -> is_409 code = false /\ is_404 code = false.
Proof.
  intros Hx. split; apply not_true_iff_false; intros Heq.
  - apply is_409_4xx in Heq. congruence.
  - apply is_404_4xx in Heq. congruence.
Qed.

Lemma applies_first_match code : applies (first_match code) code.
Proof.
  unfold first_match.
  destruct (is_409 code) eqn:H9; [exact H9 |].
  destruct (is_404 code) eqn:H4; [now split |].
  destruct (is_4xx code) eqn:Hx; cbn; auto.
Qed.

Lemma applies_unique b code : applies b code -> b = first_match code.
Proof.
  unfold first_match.
  destruct b; cbn.
  - intros ->. reflexivity.
  - intros [-> ->]. reflexivity.
  - intros (-> & -> & ->). reflexivity.
  - intros (-> & -> & ->). reflexivity.
Qed.

Lemma first_match_status (status : Z) :
  first_match (Num (of_Z status)) = branch_of_status status.
Proof.
  unfold first_match, branch_of_status, is_409, is_404, is_4xx,
    greater_or_equal, less_than, IsLessThan, ToNumber, IsStrictlyEqual,
    Number_equal, Number_lessThan, of_Z.
  rewrite !Qeq_bool_inject_Z, !Qle_bool_inject_Z.
  destruct (Z.eqb_spec status 409); [reflexivity |].
  destruct (Z.eqb_spec status 404); [reflexivity |].
  destruct (Z.leb_spec 400 status), (Z.ltb_spec status 500),
    (Z.leb_spec status 400), (Z.leb_spec 500 status); cbn; try reflexivity; lia.
Qed.

Lemma first_match_Undefined : first_match Undefined = Otherwise.
Proof. reflexivity. Qed.

Lemma Get_Object props key : Get (Object props) key = Normal (property props key).
Proof. reflexivity. Qed.

Lemma code_is_4xx_Object props :
  code_is_4xx (Object props) = Normal (is_4xx (property props "code")).
Proof.
  unfold code_is_4xx, is_4xx. cbn [Get mbind completion_bind].
  destruct (greater_or_equal _ _); reflexivity.
Qed.

(** The translator on an object, in one equation. *)
Lemma mapCosmosError_Object props :
  mapCosmosError (Object props)
  = Normal (outcome when_falsy (first_match (property props "code"))
              (property props "message")).
Proof.
  unfold mapCosmosError, first_match.
  cbn [Get mbind completion_bind].
  fold (is_409 (property props "code")).
  destruct (is_409 _); [reflexivity |].
  fold (is_404 (property props "code")).
  destruct (is_404 _); [reflexivity |].
  rewrite code_is_4xx_Object. cbn [mbind completion_bind].
  destruct (is_4xx _); reflexivity.
Qed.

(** The translator on a failure with an integral status code: the branch
    is the one arithmetic on the status gives. *)
Lemma mapCosmosError_status (status : Z) (message : primitive) :
  mapCosmosError
    (Object {[ "code" := Num (of_Z status); "message" := message ]})
  = Normal (outcome when_falsy (branch_of_status status) message).
Proof.
  rewrite mapCosmosError_Object. unfold property.
  rewrite lookup_insert_eq, lookup_insert_ne by discriminate.
  rewrite lookup_singleton_eq. cbn [from_option id].
  now rewrite first_match_status.
Qed.

(** A primitive that is not [null] or [undefined] has neither [code] nor
    [message]: it is translated like an empty object. *)
Lemma mapCosmosError_Prim p :
  p <> Undefined -> p <> Null ->
  mapCosmosError (Prim p)
  = Normal (outcome when_falsy Otherwise Undefined).
Proof. intros Hu Hn. destruct p; try congruence; reflexivity. Qed.

Lemma mapCosmosError_returns (thrown : value) :
  ~ nullish thrown -> exists translated, mapCosmosError thrown = Normal translated.
Proof.
  intros Hn. destruct thrown as [p | props].
  - eexists. apply mapCosmosError_Prim; intros ->; apply Hn; [left | right];
      reflexivity.
  - eexists. apply mapCosmosError_Object.
Qed.

(** A code that is no numeric code at all takes the last branch. *)
Lemma no_numeric_code_Otherwise (code : primitive) :
  no_numeric_code code -> applies Otherwise code.
Proof.
  destruct code as [| | b | n | s]; cbn [no_numeric_code].
  - intros _. repeat split.
  - intros _. repeat split.
  - intros _. destruct b; repeat split.
  - intros ->. repeat split.
  - intros Hnan. repeat split.
    unfold is_4xx, greater_or_equal, less_than, IsLessThan, ToNumber.
    now rewrite Hnan.
Qed.

(** C1 (amended). For every failure object, exactly one branch of the
    four-branch policy applies to its code, taken in the order 409, 404,
    400 <= code < 500, otherwise, and [mapCosmosError] returns that branch's
    error: ALREADY_EXISTS or NOT_FOUND with their fixed messages and the
    input message discarded, VALIDATION_ERROR or PERSISTENCE_ERROR with the
    input message passed through when it is truthy and the branch's fallback
    text when it is falsy (absent, null, the empty string, 0, NaN, false).
    On an integral status code the branch is the one arithmetic gives (so
    every 5xx code is PERSISTENCE_ERROR), and a failure that carries no
    numeric code at all (its code is absent, null, a boolean, not a number,
    or text that spells no number, as the codes of network errors are)
    takes the last branch and is a PERSISTENCE_ERROR. *)
Theorem mapCosmosError_policy (props : gmap string primitive) :
  (exists b : branch,
     applies b (property props "code")
     /\ (forall b', applies b' (property props "code") -> b' = b)
     /\ mapCosmosError (Object props)
        = Normal (outcome when_falsy b (property props "message")))
  /\ (forall (status : Z) (b : branch),
        applies b (Num (of_Z status)) <-> b = branch_of_status status)
  /\ (forall code : primitive, no_numeric_code code -> applies Otherwise code)
  /\ (no_numeric_code (property props "code") ->
      mapCosmosError (Object props)
      = Normal {|
          RepositoryError.code := PERSISTENCE_ERROR;
          RepositoryError.message :=
            when_falsy (property props "message")
              "An error occurred while accessing the database" |})
  /\ applies Otherwise Undefined.
Proof.
  split; [| split; [| split; [| split]]].
  - exists (first_match (property props "code")).
    split; [apply applies_first_match |].
    split; [intros b'; apply applies_unique |].
    apply mapCosmosError_Object.
  - intros status b. rewrite <- first_match_status. split.
    + apply applies_unique.
    + intros ->. apply applies_first_match.
  - apply no_numeric_code_Otherwise.
  - intros Hcode. rewrite mapCosmosError_Object.
    now rewrite <- (applies_unique _ _ (no_numeric_code_Otherwise _ Hcode)).
  - exact (applies_first_match Undefined).
Qed.

(** C9. The message fallback triggers on any falsy message, the empty
    string among them, not only on an absent one: a failure object with a
    falsy message whose code is in [400, 500) and is neither 404 nor 409 is
    translated to VALIDATION_ERROR with "Invalid request", and one whose
    code is outside the 4xx range to PERSISTENCE_ERROR with the generic
    database-access message. *)
Theorem falsy_message_falls_back (props : gmap string primitive) :
  ToBoolean (property props "message") = false ->
  (applies ClientError (property props "code") ->
   mapCosmosError (Object props)
   = Normal {| RepositoryError.code := VALIDATION_ERROR;
               RepositoryError.message := Str "Invalid request" |})
  /\ (is_4xx (property props "code") = false ->
      mapCosmosError (Object props)
      = Normal {| RepositoryError.code := PERSISTENCE_ERROR;
                  RepositoryError.message :=
                    Str "An error occurred while accessing the database" |}).
Proof.
  intros Hfalsy. rewrite mapCosmosError_Object. split.
  - intros Hb. rewrite <- (applies_unique _ _ Hb).
    unfold outcome, when_falsy. now rewrite Hfalsy.
  - intros Hx. destruct (not_4xx_neither _ Hx) as [H9 H4].
    unfold first_match. rewrite H9, H4, Hx.
    unfold outcome, when_falsy. now rewrite Hfalsy.
Qed.

End Translator.

(** ** The mapper and the two repository operations *)

Section Repository.
Context `{Host}.

Lemma from_string_iso_string tv :
  - maxTime <= tv <= maxTime -> JSDate.from_string (iso_string tv) = Instant tv.
Proof.
  intros Htv. unfold from_string, parse.
  rewrite parse_iso_string by exact Htv. unfold TimeClip.
  destruct (Z.leb_spec (Z.abs tv) maxTime); [reflexivity | lia].
Qed.

(** C4. For every valid product (its [createdAt] is a valid timestamp),
    [toDocument] returns a document, with [createdAt] serialized to the
    ISO-8601 string of that instant, and [toDomain] of the document is the
    product again: id, name, price, category, description (absent or not)
    and inStock are equal, and createdAt is the same instant. *)
Theorem toDomain_toDocument (product : Product) :
  valid_Product product ->
  exists document,
    toDocument product = Normal document
    /\ toISOString (Product.createdAt product)
       = Normal (ProductDocument.createdAt document)
    /\ toDomain document = product.
Proof.
  destruct product as [id name price category description inStock createdAt].
  unfold valid_Product, valid_Date. cbn [Product.createdAt].
  destruct createdAt as [| tv]; [intros [] |]. intros Htv.
  eexists. split; [reflexivity |]. split; [reflexivity |].
  unfold toDomain. cbn.
  now rewrite from_string_iso_string.
Qed.

(** C7. The mapper keeps storage metadata out of the domain: two documents
    that agree on the domain fields (and so differ at most in _rid, _self,
    _etag, _attachments and _ts) are mapped to equal products, and every
    document [toDocument] produces has all five metadata fields absent. *)
Theorem mapper_hides_storage_metadata :
  (forall a b : ProductDocument,
     same_domain_fields a b -> toDomain a = toDomain b)
  /\ (forall (product : Product) (document : ProductDocument),
        toDocument product = Normal document -> no_storage_metadata document).
Proof.
  split.
  - intros a b (Hid & Hname & Hprice & Hcat & Hdesc & Hstock & Hcreated).
    unfold toDomain.
    now rewrite Hid, Hname, Hprice, Hcat, Hdesc, Hstock, Hcreated.
  - intros product document. unfold toDocument.
    destruct (toISOString (Product.createdAt product)) as [iso | e]; cbn;
      [| discriminate].
    intros [= <-]. repeat split.
Qed.

(** C2. For every product whose document the store is asked to insert:
    when the store's response has a resource body, [create] returns
    [{success: true, data: toDomain(resource)}], built from the returned
    document; when the response has none, it returns the PERSISTENCE_ERROR
    "Failed to create product - no resource returned"; and when the call
    throws, it returns [{success: false, error: mapCosmosError(thrown)}]
    (and throws if evaluating [mapCosmosError(thrown)] throws). *)
Theorem create_behaviour (this : CosmosProductRepo) (product : Product)
    (document : ProductDocument) :
  toDocument product = Normal document ->
  let call :=
    Cosmos.create (Cosmos.items (container this)) document
      {| Cosmos.disableAutomaticIdGeneration := true |} in
  (forall resource,
     call = Normal {| Cosmos.resource := Some resource |} ->
     create this product = Normal (succeeded (toDomain resource)))
  /\ (call = Normal {| Cosmos.resource := None |} ->
      create this product
      = Normal (failed {|
          RepositoryError.code := PERSISTENCE_ERROR;
          RepositoryError.message :=
            Str "Failed to create product - no resource returned" |}))
  /\ (forall thrown,
        call = Throw thrown ->
        create this product
        = (translated ← mapCosmosError thrown; mret (failed translated))).
Proof.
  intros Hdoc call. unfold create. rewrite Hdoc. cbn [mbind completion_bind].
  fold call. repeat split.
  - intros resource ->. reflexivity.
  - intros ->. reflexivity.
  - intros thrown ->. reflexivity.
Qed.

(** C3. For every id, [get] reads the item with the id as both item id and
    partition key (it sees nothing of the container but its answers at such
    pairs); when the response has a resource body it returns
    [{success: true, data: toDomain(resource)}]; when it has none, NOT_FOUND
    with the message "Product with ID '<id>' not found", the id
    interpolated as given; and when the call throws, it returns
    [{success: false, error: mapCosmosError(thrown)}] (and throws if
    evaluating [mapCosmosError(thrown)] throws). *)
Theorem get_behaviour (this : CosmosProductRepo) (id : string) :
  let call := Cosmos.read (Cosmos.item (container this) id id) in
  (forall resource,
     call = Normal {| Cosmos.resource := Some resource |} ->
     get this id = Normal (succeeded (toDomain resource)))
  /\ (call = Normal {| Cosmos.resource := None |} ->
      get this id
      = Normal (failed {|
          RepositoryError.code := NOT_FOUND;
          RepositoryError.message :=
            Str ("Product with ID '" +:+ id +:+ "' not found") |}))
  /\ (forall thrown,
        call = Throw thrown ->
        get this id
        = (translated ← mapCosmosError thrown; mret (failed translated)))
  /\ (forall other : CosmosProductRepo,
        (forall key, Cosmos.item (container other) key key
                     = Cosmos.item (container this) key key) ->
        get other id = get this id).
Proof.
  intros call. unfold get. fold call. repeat split.
  - intros resource ->. reflexivity.
  - intros ->. reflexivity.
  - intros thrown ->. reflexivity.
  - intros other Hsame. unfold get. now rewrite Hsame.
Qed.

Lemma caught_result (thrown : value) (r : RepositoryResult Product) :
  (translated ← mapCosmosError thrown; mret (failed translated)) = Normal r ->
  exactly_one_variant r.
Proof.
  destruct (mapCosmosError thrown) as [translated | e]; cbn; [| discriminate].
  intros [= <-]. right. cbn. eauto.
Qed.

(** C8. Every result [create] or [get] returns, whatever the input and
    whatever the store does, has exactly one variant populated: success
    with data and no error, or failure with an error and no data. *)
Theorem result_has_one_variant (this : CosmosProductRepo) :
  (forall product r, create this product = Normal r -> exactly_one_variant r)
  /\ (forall id r, get this id = Normal r -> exactly_one_variant r).
Proof.
  split.
  - intros product r. unfold create.
    destruct (toDocument product) as [document | e];
      cbn [mbind completion_bind try_catch]; [| apply caught_result].
    destruct (Cosmos.create _ _ _) as [[[resource |]] | e]; cbn;
      [| | apply caught_result].
    + intros [= <-]. left. cbn. eauto.
    + intros [= <-]. right. cbn. eauto.
  - intros id r. unfold get.
    destruct (Cosmos.read _) as [[[resource |]] | e]; cbn;
      [| | apply caught_result].
    + intros [= <-]. left. cbn. eauto.
    + intros [= <-]. right. cbn. eauto.
Qed.

(** Where the adapter does keep its promise.  Over the thrown values of
    this embedding (primitives, and objects whose properties are data
    properties holding primitives: no Symbol, no accessor), both operations
    return a result unless the store call is rejected with [null] or
    [undefined].  A product with an invalid date never reaches the store:
    the RangeError of [toISOString] is caught and translated. *)
Lemma create_returns (this : CosmosProductRepo) (product : Product) :
  (forall document thrown,
     Cosmos.create (Cosmos.items (container this)) document
       {| Cosmos.disableAutomaticIdGeneration := true |} = Throw thrown ->
     ~ nullish thrown) ->
  exists r, create this product = Normal r.
Proof.
  intros Hstore. unfold create.
  destruct (toDocument product) as [document | e] eqn:Hdoc;
    cbn [mbind completion_bind try_catch].
  - destruct (Cosmos.create _ _ _) as [[[resource |]] | e] eqn:Hcall; cbn;
      [eauto | eauto |].
    destruct (mapCosmosError_returns e (Hstore _ _ Hcall)) as [t ->].
    cbn. eauto.
  - unfold toDocument in Hdoc.
    destruct (Product.createdAt product); cbn in Hdoc; [| discriminate].
    injection Hdoc as <-. unfold NativeError.
    rewrite mapCosmosError_Object. cbn. eauto.
Qed.

Lemma get_returns (this : CosmosProductRepo) (id : string) :
  (forall thrown,
     Cosmos.read (Cosmos.item (container this) id id) = Throw thrown ->
     ~ nullish thrown) ->
  exists r, get this id = Normal r.
Proof.
  unfold get.
  destruct (Cosmos.read _) as [[[resource |]] | e]; intros Hstore; cbn;
    [eauto | eauto |].
  destruct (mapCosmosError_returns e (Hstore e eq_refl)) as [t ->].
  cbn. eauto.
Qed.

(** A product whose [createdAt] is an invalid date is turned down before
    the store is asked: [toISOString] throws a RangeError inside the try
    block, and the catch block translates it. *)
Lemma create_with_invalid_date (this : CosmosProductRepo) (product : Product) :
  Product.createdAt product = InvalidDate ->
  create this product
  = Normal (failed {| RepositoryError.code := PERSISTENCE_ERROR;
                      RepositoryError.message := Str "Invalid time value" |}).
Proof.
  intros Hdate. unfold create, toDocument. rewrite Hdate. reflexivity.
Qed.

(** C6 (the code at the failing input). When the store call is rejected
    with [undefined] or [null], the catch block's [error.code] throws a
    TypeError and neither [get] nor [create] returns a result: the
    TypeError reaches the caller. *)
Theorem nullish_rejection_escapes (id : string) :
  get (repo_over (container_answering (Throw (Prim Undefined)))) id
  = Throw (NativeError "TypeError"
             "Cannot read properties of undefined (reading 'code')")
  /\ get (repo_over (container_answering (Throw (Prim Null)))) id
     = Throw (NativeError "TypeError"
                "Cannot read properties of null (reading 'code')")
  /\ create (repo_over (container_answering (Throw (Prim Undefined)))) laptop
     = Throw (NativeError "TypeError"
                "Cannot read properties of undefined (reading 'code')")
  /\ create (repo_over (container_answering (Throw (Prim Null)))) laptop
     = Throw (NativeError "TypeError"
                "Cannot read properties of null (reading 'code')").
Proof. repeat split. Qed.

End Repository.

(** ** The list endpoint *)

Section Handler.
Context `{Host}.

(** One run of the handler: three clock readings, one log entry, and the
    success envelope; or, when the clock reading for the timestamp is no
    valid time, the RangeError of [toISOString], a second log entry and the
    error envelope. *)
Lemma listProductsHttp_run (productRepo : ProductRepo) request context w :
  let t0 := ticks w (reads w) in
  let t1 := ticks w (S (reads w)) in
  let t2 := ticks w (S (S (reads w))) in
  let entry :=
    [Prim (Str "HTTP trigger function processed a request to list products")] in
  listProductsHttp productRepo request context w
  = match JSDate.from_clock t2 with
    | Instant tv =>
        (Normal {| status := 200;
                   headers := {[ "Content-Type" := "application/json";
                                 "Cache-Control" := "no-cache" ]};
                   body := JSON_stringify
                     (success_envelope (from_clock t0) (from_clock t1)
                        (iso_string tv)) 2 |},
         {| ticks := ticks w; reads := S (S (S (reads w)));
            logged := logged w ++ [entry] |})
    | InvalidDate =>
        (Normal {| status := 500;
                   headers := {[ "Content-Type" := "application/json" ]};
                   body := JSON_stringify error_envelope 2 |},
         {| ticks := ticks w; reads := S (S (S (reads w)));
            logged := (logged w ++ [entry])
                      ++ [[Prim (Str "Error listing products:");
                           NativeError "RangeError" "Invalid time value"]] |})
    end.
Proof.
  intros t0 t1 t2 entry.
  subst t0 t1 t2 entry. destruct w as [clock n entries].
  cbv [listProductsHttp try_catch_effect new_Date context_log lift
       mbind effect_bind mret effect_ret ticks reads logged].
  destruct (from_clock (clock (S (S n)))); reflexivity.
Qed.

(** The handler always answers, with one of two statuses. *)
Lemma listProductsHttp_returns (productRepo : ProductRepo) request context w :
  exists response w',
    listProductsHttp productRepo request context w = (Normal response, w')
    /\ (status response = 200 \/ status response = 500).
Proof.
  rewrite listProductsHttp_run. cbv zeta.
  destruct (from_clock _); eexists _, _; split; try reflexivity; cbn; auto.
Qed.

(** The exceptional path: when the clock reading for the timestamp is no
    valid time, the handler answers 500 with the INTERNAL_ERROR envelope
    and Content-Type alone. *)
Lemma listProductsHttp_failure (productRepo : ProductRepo)
    (request : HttpRequest) (context : InvocationContext) (w : World) :
  ~ timestamp_in_range w ->
  exists w',
    listProductsHttp productRepo request context w
    = (Normal {| status := 500;
                 headers := {[ "Content-Type" := "application/json" ]};
                 body := JSON_stringify error_envelope 2 |}, w').
Proof.
  intros Hclock. rewrite listProductsHttp_run. cbv zeta.
  unfold from_clock, TimeClip, timestamp_in_range in *.
  destruct (Z.leb_spec (Z.abs (ticks w (S (S (reads w))))) maxTime);
    [lia | eexists; reflexivity].
Qed.

(** C5 (amended). On its non-exceptional path (the clock reading for the
    timestamp is a valid time, so nothing in the try block throws) the
    handler answers with status 200, the headers Content-Type:
    application/json and Cache-Control: no-cache, and the serialized
    success envelope: [data] is the two sample products PROD-001 and
    PROD-002, fixed but for the [createdAt] of each, which is the time the
    clock shows when the item is built, and [metadata] holds [count] and
    [timestamp].  The handler never consults the storage adapter: its
    outcome is the same whatever repository is in scope. *)
Theorem listProductsHttp_success (productRepo : ProductRepo)
    (request : HttpRequest) (context : InvocationContext) (w : World) :
  timestamp_in_range w ->
  (exists w',
     listProductsHttp productRepo request context w
     = (Normal {|
          status := 200;
          headers := {[ "Content-Type" := "application/json";
                        "Cache-Control" := "no-cache" ]};
          body := JSON_stringify
            {| ListProductsResponse.success := true;
               ListProductsResponse.data := Some
                 (sample_products (from_clock (ticks w (reads w)))
                                  (from_clock (ticks w (S (reads w)))));
               ListProductsResponse.error := None;
               ListProductsResponse.metadata := Some
                 {| ListProductsResponse.count := of_Z 2;
                    ListProductsResponse.timestamp :=
                      iso_string (ticks w (S (S (reads w)))) |} |} 2;
        |}, w'))
  /\ (forall otherRepo : ProductRepo,
        listProductsHttp otherRepo request context w
        = listProductsHttp productRepo request context w).
Proof.
  intros Hclock. split.
  - rewrite listProductsHttp_run. cbv zeta.
    rewrite (from_clock_in_range _ Hclock). eexists. reflexivity.
  - intros otherRepo. now rewrite !listProductsHttp_run.
Qed.

(** C10. In every success response of the handler, [metadata.count]
    equals the length of the [data] array: the body is the serialization of
    an envelope with [success] true in which the two agree. *)
Theorem count_is_length_of_data (productRepo : ProductRepo)
    (request : HttpRequest) (context : InvocationContext) (w w' : World)
    (response : HttpResponseInit) :
  listProductsHttp productRepo request context w = (Normal response, w') ->
  status response = 200 ->
  exists envelope products metadata,
    body response = JSON_stringify envelope 2
    /\ ListProductsResponse.success envelope = true
    /\ ListProductsResponse.data envelope = Some products
    /\ ListProductsResponse.metadata envelope = Some metadata
    /\ ListProductsResponse.count metadata = of_nat (length products).
Proof.
  rewrite listProductsHttp_run. cbv zeta.
  destruct (from_clock _) as [| tv]; intros [= <- <-]; cbn [status body].
  - discriminate.
  - intros _. eexists _, _, _. repeat split.
Qed.

End Handler.

(** ** The statements at concrete inputs *)

Section Instances.

#[local] Existing Instance bare_host.

Lemma toDocument_laptop : toDocument laptop = Normal laptop_document.
Proof. reflexivity. Qed.

(** A failure that carries no code at all is a PERSISTENCE_ERROR, its
    message passed through. *)
Lemma failure_without_code :
  mapCosmosError
    (Object {[ "name" := Str "TimeoutError"; "message" := Str "Request timed out" ]})
  = Normal {| RepositoryError.code := PERSISTENCE_ERROR;
              RepositoryError.message := Str "Request timed out" |}.
Proof. reflexivity. Qed.

(** C1 as stated fails. The failure [{code: 400, message: ""}] carries a
    message, the empty string; passing it through would give
    VALIDATION_ERROR with message "", and [mapCosmosError] gives
    VALIDATION_ERROR with "Invalid request".  So "passed through, falling
    back when absent" does not hold for every failure object. *)
Lemma empty_message_is_replaced :
  applies ClientError (property empty_message_400 "code")
  /\ mapCosmosError (Object empty_message_400)
     = Normal {| RepositoryError.code := VALIDATION_ERROR;
                 RepositoryError.message := Str "Invalid request" |}
  /\ outcome when_absent ClientError (property empty_message_400 "message")
     = {| RepositoryError.code := VALIDATION_ERROR;
          RepositoryError.message := Str "" |}
  /\ ~ (forall (host : Host) (props : gmap string primitive) (b : branch),
          @applies host b (property props "code") ->
          @mapCosmosError host (Object props)
          = Normal (outcome when_absent b (property props "message"))).
Proof.
  assert (applies ClientError (property empty_message_400 "code")) as Hb
    by (repeat split).
  repeat split.
  intros Hclaim. specialize (Hclaim bare_host empty_message_400 ClientError Hb).
  discriminate Hclaim.
Qed.

(** C9 at [{code: 400, message: ""}] and [{code: 503, message: ""}]. *)
Lemma falsy_message_falls_back_at_empty_string :
  ToBoolean (property empty_message_400 "message") = false
  /\ applies ClientError (property empty_message_400 "code")
  /\ mapCosmosError (Object empty_message_400)
     = Normal {| RepositoryError.code := VALIDATION_ERROR;
                 RepositoryError.message := Str "Invalid request" |}
  /\ ToBoolean (property empty_message_503 "message") = false
  /\ is_4xx (property empty_message_503 "code") = false
  /\ mapCosmosError (Object empty_message_503)
     = Normal {| RepositoryError.code := PERSISTENCE_ERROR;
                 RepositoryError.message :=
                   Str "An error occurred while accessing the database" |}.
Proof.
  assert (applies ClientError (property empty_message_400 "code")) as Hb
    by (repeat split).
  split; [reflexivity |]. split; [exact Hb |].
  split; [exact (proj1 (falsy_message_falls_back empty_message_400 eq_refl) Hb) |].
  split; [reflexivity |]. split; [reflexivity |].
  exact (proj2 (falsy_message_falls_back empty_message_503 eq_refl) eq_refl).
Defined.

(** C4 at the laptop. *)
Lemma toDomain_toDocument_laptop :
  valid_Product laptop
  /\ exists document,
       toDocument laptop = Normal document
       /\ toISOString (Product.createdAt laptop)
          = Normal (ProductDocument.createdAt document)
       /\ toDomain document = laptop.
Proof.
  assert (valid_Product laptop) as Hvalid
    by (unfold valid_Product, valid_Date, laptop, maxTime; cbn; lia).
  split; [exact Hvalid |].
  exact (toDomain_toDocument laptop Hvalid).
Defined.

(** C7 at the stored laptop, with and without its system properties. *)
Lemma mapper_hides_metadata_of_stored_laptop :
  same_domain_fields stored_laptop stored_laptop_bare
  /\ toDomain stored_laptop = toDomain stored_laptop_bare
  /\ no_storage_metadata laptop_document.
Proof.
  assert (same_domain_fields stored_laptop stored_laptop_bare) as Hsame
    by (repeat split).
  split; [exact Hsame |]. split.
  - exact (proj1 mapper_hides_storage_metadata _ _ Hsame).
  - exact (proj2 mapper_hides_storage_metadata _ _ toDocument_laptop).
Defined.

(** C2 at the laptop: a store that answers with the stored document, one
    that answers with no resource, and one that reports a conflict. *)
Lemma create_behaviour_at_laptop :
  toDocument laptop = Normal laptop_document
  /\ create (repo_over (container_answering
               (Normal {| Cosmos.resource := Some stored_laptop |}))) laptop
     = Normal (succeeded (toDomain stored_laptop))
  /\ Product.name (toDomain stored_laptop) = "Laptop (stored)"
  /\ create (repo_over (container_answering
               (Normal {| Cosmos.resource := None |}))) laptop
     = Normal (failed {|
         RepositoryError.code := PERSISTENCE_ERROR;
         RepositoryError.message :=
           Str "Failed to create product - no resource returned" |})
  /\ create (repo_over (container_answering (Throw conflict_failure))) laptop
     = Normal (failed {|
         RepositoryError.code := ALREADY_EXISTS;
         RepositoryError.message :=
           Str "A product with this ID already exists" |}).
Proof.
  split; [exact toDocument_laptop |].
  split; [| split; [reflexivity | split]].
  - exact (proj1 (create_behaviour
             (repo_over (container_answering
                (Normal {| Cosmos.resource := Some stored_laptop |})))
             laptop laptop_document toDocument_laptop) stored_laptop eq_refl).
  - exact (proj1 (proj2 (create_behaviour
             (repo_over (container_answering
                (Normal {| Cosmos.resource := None |})))
             laptop laptop_document toDocument_laptop)) eq_refl).
  - exact (proj2 (proj2 (create_behaviour
             (repo_over (container_answering (Throw conflict_failure)))
             laptop laptop_document toDocument_laptop))
             conflict_failure eq_refl).
Defined.

(** C3 at a container that holds the stored laptop under PROD-100, and at
    one that reports a conflict. *)
Lemma get_behaviour_at_laptop :
  get (repo_over (container_holding "PROD-100" stored_laptop)) "PROD-100"
  = Normal (succeeded (toDomain stored_laptop))
  /\ get (repo_over (container_holding "PROD-100" stored_laptop)) "PROD-7"
     = Normal (failed {|
         RepositoryError.code := NOT_FOUND;
         RepositoryError.message := Str "Product with ID 'PROD-7' not found" |})
  /\ get (repo_over (container_answering (Throw conflict_failure))) "PROD-100"
     = Normal (failed {|
         RepositoryError.code := ALREADY_EXISTS;
         RepositoryError.message :=
           Str "A product with this ID already exists" |}).
Proof.
  split; [| split].
  - exact (proj1 (get_behaviour
             (repo_over (container_holding "PROD-100" stored_laptop))
             "PROD-100") stored_laptop eq_refl).
  - exact (proj1 (proj2 (get_behaviour
             (repo_over (container_holding "PROD-100" stored_laptop))
             "PROD-7")) eq_refl).
  - exact (proj1 (proj2 (proj2 (get_behaviour
             (repo_over (container_answering (Throw conflict_failure)))
             "PROD-100"))) conflict_failure eq_refl).
Defined.

(** C8 at a successful [create] and a [get] that finds nothing. *)
Lemma result_has_one_variant_at_laptop :
  exactly_one_variant (succeeded (toDomain stored_laptop))
  /\ exactly_one_variant
       (failed (T := Product) {|
          RepositoryError.code := NOT_FOUND;
          RepositoryError.message := Str "Product with ID 'PROD-7' not found" |}).
Proof.
  split.
  - exact (proj1 (result_has_one_variant
             (repo_over (container_answering
                (Normal {| Cosmos.resource := Some stored_laptop |}))))
             laptop _ eq_refl).
  - exact (proj2 (result_has_one_variant
             (repo_over (container_holding "PROD-100" stored_laptop)))
             "PROD-7" _ eq_refl).
Defined.

(** C5 at a repository whose store rejects every call: the handler
    answers 200 all the same. *)
Lemma listProductsHttp_success_run :
  timestamp_in_range a_world
  /\ exists w',
       listProductsHttp a_repo a_request a_context a_world
       = (Normal {|
            status := 200;
            headers := {[ "Content-Type" := "application/json";
                          "Cache-Control" := "no-cache" ]};
            body := JSON_stringify
              {| ListProductsResponse.success := true;
                 ListProductsResponse.data := Some
                   (sample_products (Instant 1700000000000)
                                    (Instant 1700000000001));
                 ListProductsResponse.error := None;
                 ListProductsResponse.metadata := Some
                   {| ListProductsResponse.count := of_Z 2;
                      ListProductsResponse.timestamp :=
                        "2023-11-14T22:13:20.002Z" |} |} 2;
          |}, w').
Proof.
  assert (timestamp_in_range a_world) as Hw
    by (unfold timestamp_in_range, a_world, maxTime; cbn; lia).
  split; [exact Hw |].
  exact (proj1 (listProductsHttp_success a_repo a_request a_context a_world Hw)).
Defined.

(** C10 at the same run. *)
Lemma count_is_length_of_data_run :
  exists response w',
    listProductsHttp a_repo a_request a_context a_world = (Normal response, w')
    /\ status response = 200
    /\ exists envelope products metadata,
         body response = JSON_stringify envelope 2
         /\ ListProductsResponse.success envelope = true
         /\ ListProductsResponse.data envelope = Some products
         /\ ListProductsResponse.metadata envelope = Some metadata
         /\ ListProductsResponse.count metadata = of_nat (length products).
Proof.
  eexists _, _. split; [reflexivity |]. split; [reflexivity |].
  exact (count_is_length_of_data a_repo a_request a_context a_world _ _
           eq_refl eq_refl).
Defined.

(** The adapter's operations at stores that fail with a proper error. *)
Lemma create_returns_at_conflict :
  (forall document thrown,
     Cosmos.create
       (Cosmos.items (container (repo_over (container_answering (Throw conflict_failure)))))
       document {| Cosmos.disableAutomaticIdGeneration := true |} = Throw thrown ->
     ~ nullish thrown)
  /\ exists r,
       create (repo_over (container_answering (Throw conflict_failure))) laptop
       = Normal r.
Proof.
  assert (forall document thrown,
     Cosmos.create
       (Cosmos.items (container (repo_over (container_answering (Throw conflict_failure)))))
       document {| Cosmos.disableAutomaticIdGeneration := true |} = Throw thrown ->
     ~ nullish thrown) as Hstore.
  { intros document thrown [= <-] [Hn | Hn]; discriminate Hn. }
  split; [exact Hstore |].
  exact (create_returns _ laptop Hstore).
Defined.

Lemma get_returns_at_conflict :
  (forall thrown,
     Cosmos.read
       (Cosmos.item (container (repo_over (container_answering (Throw conflict_failure))))
          "PROD-100" "PROD-100") = Throw thrown ->
     ~ nullish thrown)
  /\ exists r,
       get (repo_over (container_answering (Throw conflict_failure))) "PROD-100"
       = Normal r.
Proof.
  assert (forall thrown,
     Cosmos.read
       (Cosmos.item (container (repo_over (container_answering (Throw conflict_failure))))
          "PROD-100" "PROD-100") = Throw thrown ->
     ~ nullish thrown) as Hstore.
  { intros thrown [= <-] [Hn | Hn]; discriminate Hn. }
  split; [exact Hstore |].
  exact (get_returns _ "PROD-100" Hstore).
Defined.

Lemma create_with_invalid_date_at_laptop :
  Product.createdAt undated_laptop = InvalidDate
  /\ create (repo_over (container_answering
               (Normal {| Cosmos.resource := Some stored_laptop |})))
       undated_laptop
     = Normal (failed {| RepositoryError.code := PERSISTENCE_ERROR;
                         RepositoryError.message := Str "Invalid time value" |}).
Proof.
  split; [reflexivity |].
  exact (create_with_invalid_date _ undated_laptop eq_refl).
Defined.

Lemma listProductsHttp_failure_run :
  ~ timestamp_in_range a_late_world
  /\ exists w',
       listProductsHttp a_repo a_request a_context a_late_world
       = (Normal {| status := 500;
                    headers := {[ "Content-Type" := "application/json" ]};
                    body := JSON_stringify error_envelope 2 |}, w').
Proof.
  assert (~ timestamp_in_range a_late_world) as Hw
    by (unfold timestamp_in_range, a_late_world, maxTime; cbn; lia).
  split; [exact Hw |].
  exact (listProductsHttp_failure a_repo a_request a_context a_late_world Hw).
Defined.

End Instances.

(** ** Further properties of the translator *)

Section TranslatorFurther.
Context `{Host}.

(** The message of a translated error is never falsy, and it is a
    non-empty string whenever the failure's message is a string or is
    absent. *)
Lemma translated_message_is_truthy (props : gmap string primitive) :
  exists translated,
    mapCosmosError (Object props) = Normal translated
    /\ ToBoolean (RepositoryError.message translated) = true
    /\ (textual (property props "message") ->
        exists text,
          RepositoryError.message translated = Str text /\ text <> "").
Proof.
  eexists. split; [apply mapCosmosError_Object |].
  destruct (first_match (property props "code")); cbn [outcome RepositoryError.message].
  1,2: split; [reflexivity | intros _; eexists; split; [reflexivity | discriminate]].
  all: unfold when_falsy;
    destruct (ToBoolean (property props "message")) eqn:Htruthy;
    (split; [first [exact Htruthy | reflexivity] |]);
    destruct (property props "message") as [| | b | n | s]; cbn;
      try contradiction; try discriminate; intros _;
      eexists; (split; [reflexivity |]); try discriminate.
  all: cbn in Htruthy; apply negb_true_iff, String.eqb_neq in Htruthy;
    exact Htruthy.
Qed.

(** Strict equality never matches a code that arrived as a string: such a
    failure is a VALIDATION_ERROR or a PERSISTENCE_ERROR, and it is a
    VALIDATION_ERROR when the string converts to a status between 400 and
    499, 404 and 409 included. *)
Lemma string_code_is_not_matched (props : gmap string primitive) (s : string) :
  property props "code" = Str s ->
  exists translated,
    mapCosmosError (Object props) = Normal translated
    /\ (RepositoryError.code translated = VALIDATION_ERROR
        \/ RepositoryError.code translated = PERSISTENCE_ERROR)
    /\ (forall status,
          400 <= status < 500 ->
          Number_equal (StringToNumber s) (of_Z status) = true ->
          RepositoryError.code translated = VALIDATION_ERROR).
Proof.
  intros Hcode. eexists. split; [apply mapCosmosError_Object |].
  rewrite Hcode. unfold first_match.
  change (is_409 (Str s)) with false. change (is_404 (Str s)) with false.
  cbn [outcome]. destruct (is_4xx (Str s)) eqn:Hx; cbn; split; auto.
  intros status Hstatus Heq.
  destruct (Number_equal_of_Z_4xx _ _ Hstatus Heq) as [Hge Hlt].
  unfold is_4xx, greater_or_equal, less_than, IsLessThan, ToNumber in Hx.
  rewrite Hge, Hlt in Hx. discriminate Hx.
Qed.

End TranslatorFurther.

(** ** Further properties of the mapper and the repository *)

Section RepositoryFurther.
Context `{Host}.

Lemma TimeClip_Instant time tv :
  TimeClip time = Instant tv -> time = Some tv /\ - maxTime <= tv <= maxTime.
Proof.
  unfold TimeClip. destruct time as [t |]; [| discriminate].
  destruct (Z.leb_spec (Z.abs t) maxTime); [| discriminate].
  intros [= <-]. split; [reflexivity | lia].
Qed.

Lemma toDocument_Instant (product : Product) tv :
  Product.createdAt product = Instant tv ->
  toDocument product
  = Normal {|
      ProductDocument.id := Product.id product;
      ProductDocument.name := Product.name product;
      ProductDocument.price := Product.price product;
      ProductDocument.category := Product.category product;
      ProductDocument.description := Product.description product;
      ProductDocument.inStock := Product.inStock product;
      ProductDocument.createdAt := iso_string tv;
      ProductDocument._rid := None;
      ProductDocument._self := None;
      ProductDocument._etag := None;
      ProductDocument._attachments := None;
      ProductDocument._ts := None |}.
Proof. intros Hdate. unfold toDocument. now rewrite Hdate. Qed.

Lemma toDomain_of_toDocument (product : Product) (document : ProductDocument) :
  valid_Product product ->
  toDocument product = Normal document ->
  toDomain document = product.
Proof.
  destruct product as [id name price category description inStock createdAt].
  unfold valid_Product, valid_Date. cbn [Product.createdAt].
  destruct createdAt as [| tv]; [intros [] |]. intros Htv.
  erewrite toDocument_Instant by reflexivity. intros [= <-].
  unfold toDomain. cbn. now rewrite from_string_iso_string.
Qed.

Lemma toDomain_same_fields (a b : ProductDocument) :
  same_domain_fields a b -> toDomain a = toDomain b.
Proof.
  intros (Hid & Hname & Hprice & Hcat & Hdesc & Hstock & Hcreated).
  unfold toDomain.
  now rewrite Hid, Hname, Hprice, Hcat, Hdesc, Hstock, Hcreated.
Qed.

(** Reading a stored document and saving it again changes nothing the
    domain sees: whenever the stored [createdAt] is read as a valid date,
    in whatever format, [toDocument (toDomain d)] is a document without
    storage metadata, dated with the ISO string of that instant, and
    [toDomain] maps it to the product [d] was mapped to. *)
Lemma resave_is_stable (d : ProductDocument) (tv : Z) :
  JSDate.from_string (ProductDocument.createdAt d) = Instant tv ->
  exists d',
    toDocument (toDomain d) = Normal d'
    /\ ProductDocument.createdAt d' = iso_string tv
    /\ no_storage_metadata d'
    /\ toDomain d' = toDomain d.
Proof.
  intros Hdate.
  destruct (TimeClip_Instant _ _ Hdate) as [_ Hrange].
  eexists. split.
  - apply (toDocument_Instant (toDomain d) tv). exact Hdate.
  - split; [reflexivity |]. split; [repeat split |].
    unfold toDomain. cbn. rewrite Hdate. now rewrite from_string_iso_string.
Qed.

(** A store that echoes the document it was given, whatever system
    properties it adds, makes [create] return the very product it was
    called with. *)
Lemma create_echoes (this : CosmosProductRepo) (product : Product)
    (document stored : ProductDocument) :
  valid_Product product ->
  toDocument product = Normal document ->
  Cosmos.create (Cosmos.items (container this)) document
    {| Cosmos.disableAutomaticIdGeneration := true |}
  = Normal {| Cosmos.resource := Some stored |} ->
  same_domain_fields stored document ->
  create this product = Normal (succeeded product).
Proof.
  intros Hvalid Hdoc Hcall Hsame. unfold create.
  rewrite Hdoc. cbn [mbind completion_bind]. rewrite Hcall. cbn.
  now rewrite (toDomain_same_fields _ _ Hsame),
    (toDomain_of_toDocument _ _ Hvalid Hdoc).
Qed.

(** A store that holds under a product's id what [toDocument] wrote for it
    makes [get] of that id return the product. *)
Lemma get_echoes (this : CosmosProductRepo) (product : Product)
    (document stored : ProductDocument) :
  valid_Product product ->
  toDocument product = Normal document ->
  Cosmos.read (Cosmos.item (container this)
                 (Product.id product) (Product.id product))
  = Normal {| Cosmos.resource := Some stored |} ->
  same_domain_fields stored document ->
  get this (Product.id product) = Normal (succeeded product).
Proof.
  intros Hvalid Hdoc Hcall Hsame. unfold get.
  rewrite Hcall. cbn.
  now rewrite (toDomain_same_fields _ _ Hsame),
    (toDomain_of_toDocument _ _ Hvalid Hdoc).
Qed.

(** A stored document whose [createdAt] is not read as a valid date does
    not make [get] fail: [get] reports success with a product whose
    [createdAt] is an invalid date, and no repository can [create] that
    product again. *)
Lemma get_with_unreadable_date (this : CosmosProductRepo) (id : string)
    (stored : ProductDocument) :
  Cosmos.read (Cosmos.item (container this) id id)
  = Normal {| Cosmos.resource := Some stored |} ->
  JSDate.from_string (ProductDocument.createdAt stored) = InvalidDate ->
  exists product,
    get this id = Normal (succeeded product)
    /\ Product.createdAt product = InvalidDate
    /\ forall that : CosmosProductRepo,
         create that product
         = Normal (failed {|
             RepositoryError.code := PERSISTENCE_ERROR;
             RepositoryError.message := Str "Invalid time value" |}).
Proof.
  intros Hcall Hdate. exists (toDomain stored).
  split; [unfold get; now rewrite Hcall |].
  split; [exact Hdate |].
  intros that. unfold create, toDocument.
  cbn [toDomain Product.createdAt]. rewrite Hdate. reflexivity.
Qed.

(** [create] asks the store for nothing but an insert with automatic id
    generation disabled: two repositories whose containers answer such
    inserts alike give the same result for every product. *)
Lemma create_only_inserts_with_given_id (this other : CosmosProductRepo)
    (product : Product) :
  (forall document,
     Cosmos.create (Cosmos.items (container other)) document
       {| Cosmos.disableAutomaticIdGeneration := true |}
     = Cosmos.create (Cosmos.items (container this)) document
         {| Cosmos.disableAutomaticIdGeneration := true |}) ->
  create other product = create this product.
Proof.
  intros Hsame. unfold create.
  destruct (toDocument product) as [document | e]; [| reflexivity].
  cbn [mbind completion_bind]. now rewrite Hsame.
Qed.

(** Both operations translate a thrown object by the same policy, which
    looks at the failure's code and message and at nothing else: not at
    the product, the id or the operation.  So [create] reports NOT_FOUND
    when the store answers 404, and [get] reports ALREADY_EXISTS when it
    answers 409. *)
Lemma thrown_object_translation (this : CosmosProductRepo) (product : Product)
    (document : ProductDocument) (id : string) (props : gmap string primitive) :
  toDocument product = Normal document ->
  let translated :=
    outcome when_falsy (first_match (property props "code"))
      (property props "message") in
  (Cosmos.create (Cosmos.items (container this)) document
     {| Cosmos.disableAutomaticIdGeneration := true |} = Throw (Object props) ->
   create this product = Normal (failed translated))
  /\ (Cosmos.read (Cosmos.item (container this) id id) = Throw (Object props) ->
      get this id = Normal (failed translated)).
Proof.
  intros Hdoc translated. split; intros Hcall.
  - unfold create. rewrite Hdoc. cbn [mbind completion_bind]. rewrite Hcall.
    cbn [mbind completion_bind try_catch]. now rewrite mapCosmosError_Object.
  - unfold get. rewrite Hcall.
    cbn [mbind completion_bind try_catch]. now rewrite mapCosmosError_Object.
Qed.

(** A store call rejected with a bare primitive (a thrown string, number
    or boolean) is reported as a PERSISTENCE_ERROR with the generic
    message: the primitive itself is lost. *)
Lemma thrown_primitive_is_lost (this : CosmosProductRepo) (id : string)
    (p : primitive) :
  p <> Undefined -> p <> Null ->
  Cosmos.read (Cosmos.item (container this) id id) = Throw (Prim p) ->
  get this id
  = Normal (failed {|
      RepositoryError.code := PERSISTENCE_ERROR;
      RepositoryError.message :=
        Str "An error occurred while accessing the database" |}).
Proof.
  intros Hu Hn Hcall. unfold get. rewrite Hcall. cbn [mbind completion_bind try_catch].
  now rewrite (mapCosmosError_Prim p Hu Hn).
Qed.

(** Two valid products with the same document are the same product. *)
Lemma toDocument_injective (p1 p2 : Product) :
  valid_Product p1 -> valid_Product p2 ->
  toDocument p1 = toDocument p2 -> p1 = p2.
Proof.
  intros H1 H2 Heq.
  destruct (toDocument p1) as [d |] eqn:Hd1.
  - rewrite <- (toDomain_of_toDocument p1 d H1 Hd1).
    apply (toDomain_of_toDocument p2 d H2). now symmetry.
  - unfold valid_Product, valid_Date in H1. unfold toDocument in Hd1.
    destruct (Product.createdAt p1); [contradiction | discriminate].
Qed.

End RepositoryFurther.

(** ** Configuration and construction *)

Section Construction.
Context `{SDK.CosmosSDK}.

Lemma env_or_nonempty value fallback :
  fallback <> "" -> env_or value fallback <> "".
Proof.
  intros Hf. unfold env_or. destruct value as [s |]; [| exact Hf].
  cbn. destruct (String.eqb_spec s ""); cbn; [exact Hf | assumption].
Qed.

Lemma env_or_set s fallback : s <> "" -> env_or (Some s) fallback = s.
Proof.
  intros Hs. unfold env_or. cbn.
  destruct (String.eqb_spec s ""); [contradiction | reflexivity].
Qed.

(** Whatever the environment holds, the options never carry an empty
    endpoint, database id or container id: a variable that is not set or
    set to the empty string gives way to its default, and one set to a
    non-empty string is taken as it is.  The key is taken as it is, empty
    or not. *)
Lemma cosmosOptions_defaults (env : gmap string string) :
  let options := cosmosOptions env in
  (CosmosProductRepoOptions.endpoint options <> ""
   /\ CosmosProductRepoOptions.databaseId options <> ""
   /\ CosmosProductRepoOptions.containerId options <> "")
  /\ (forall s, s <> "" ->
        (env !! "COSMOS_ENDPOINT" = Some s ->
         CosmosProductRepoOptions.endpoint options = s)
        /\ (env !! "COSMOS_DATABASE" = Some s ->
            CosmosProductRepoOptions.databaseId options = s)
        /\ (env !! "COSMOS_CONTAINER" = Some s ->
            CosmosProductRepoOptions.containerId options = s))
  /\ (unset_or_empty (env !! "COSMOS_ENDPOINT") ->
      CosmosProductRepoOptions.endpoint options = "https://localhost:8081")
  /\ (unset_or_empty (env !! "COSMOS_DATABASE") ->
      CosmosProductRepoOptions.databaseId options = "ProductsDB")
  /\ (unset_or_empty (env !! "COSMOS_CONTAINER") ->
      CosmosProductRepoOptions.containerId options = "Products")
  /\ CosmosProductRepoOptions.key options = env !! "COSMOS_KEY".
Proof.
  cbv zeta. unfold cosmosOptions. cbn.
  split; [repeat split; apply env_or_nonempty; discriminate |].
  split.
  - intros s Hs. repeat split; intros ->; apply env_or_set; exact Hs.
  - repeat split; intros [-> | ->]; reflexivity.
Qed.

(** An empty key is no key: with the key absent or the empty string the
    constructor builds the client from the endpoint alone, and with any
    other key from the endpoint and that key.  Either way the repository is
    bound to [database(databaseId).container(containerId)] of that client. *)
Lemma constructor_credentials (options : CosmosProductRepoOptions) :
  let bound (client_options : CosmosClientOptions) :=
    cosmosClient ← SDK.CosmosClient client_options;
    database ← SDK.database cosmosClient
                 (CosmosProductRepoOptions.databaseId options);
    container ← SDK.container database
                  (CosmosProductRepoOptions.containerId options);
    mret {| CosmosProductRepo.container := container |} in
  (unset_or_empty (CosmosProductRepoOptions.key options) ->
   new_CosmosProductRepo options = bound (keyless options))
  /\ (forall key,
        CosmosProductRepoOptions.key options = Some key -> key <> "" ->
        new_CosmosProductRepo options
        = bound {| CosmosClientOptions.endpoint :=
                     CosmosProductRepoOptions.endpoint options;
                   CosmosClientOptions.key := Some key |}).
Proof.
  cbv zeta. unfold new_CosmosProductRepo, keyless. split.
  - intros [Hkey | Hkey]; rewrite Hkey; reflexivity.
  - intros key Hkey Hne. rewrite Hkey. cbn [ToBoolean].
    destruct (String.eqb_spec key ""); [contradiction | reflexivity].
Qed.

(** The repository of the list-products module, built when the module is
    loaded: unless COSMOS_KEY is set to a non-empty string, the client is
    created without a key, from an endpoint that is never empty. *)
Lemma productRepo_without_key `{Host} (env : gmap string string) :
  unset_or_empty (env !! "COSMOS_KEY") ->
  CosmosProductRepoOptions.endpoint (cosmosOptions env) <> ""
  /\ productRepo env
     = (cosmosClient ← SDK.CosmosClient (keyless (cosmosOptions env));
        database ← SDK.database cosmosClient
                     (env_or (env !! "COSMOS_DATABASE") "ProductsDB");
        container ← SDK.container database
                      (env_or (env !! "COSMOS_CONTAINER") "Products");
        mret (as_ProductRepo {| CosmosProductRepo.container := container |})).
Proof.
  intros Hkey. split; [apply env_or_nonempty; discriminate |].
  unfold productRepo, new_CosmosProductRepo, keyless, cosmosOptions.
  cbn [CosmosProductRepoOptions.key CosmosProductRepoOptions.endpoint
       CosmosProductRepoOptions.databaseId
       CosmosProductRepoOptions.containerId].
  destruct Hkey as [-> | ->]; cbn [ToBoolean String.eqb negb].
  all: destruct (SDK.CosmosClient _) as [client |]; [| reflexivity].
  all: cbn [mbind completion_bind].
  all: destruct (SDK.database _ _) as [db |]; [| reflexivity].
  all: cbn [mbind completion_bind].
  all: destruct (SDK.container _ _) as [c |]; reflexivity.
Qed.

End Construction.

(** ** Further properties of the list endpoint *)

Section HandlerFurther.
Context `{Host}.

(** What one invocation does to the world: it reads the clock exactly
    three times, leaves the clock and the earlier log entries as they were,
    and appends one log entry when it answers 200, two when it answers
    500. *)
Lemma listProductsHttp_effects (productRepo : ProductRepo)
    (request : HttpRequest) (context : InvocationContext) (w : World) :
  exists response w' (entries : list (list value)),
    listProductsHttp productRepo request context w = (Normal response, w')
    /\ ticks w' = ticks w
    /\ reads w' = (3 + reads w)%nat
    /\ logged w' = (logged w ++ entries)%list
    /\ (status response = 200 /\ length entries = 1%nat
        \/ status response = 500 /\ length entries = 2%nat).
Proof.
  rewrite listProductsHttp_run. cbv zeta.
  destruct (from_clock _).
  - eexists _, _, _. split; [reflexivity |]. cbn [ticks reads logged status].
    rewrite <- app_assoc.
    repeat split. right. split; reflexivity.
  - eexists _, _, _. split; [reflexivity |]. cbn [ticks reads logged status].
    repeat split. left. split; reflexivity.
Qed.

End HandlerFurther.

(** ** The further statements at concrete inputs *)

Section FurtherInstances.

#[local] Existing Instance bare_host.
#[local] Existing Instance a_sdk.

(** A 404 that arrives as the string "404" is a VALIDATION_ERROR. *)
Lemma string_code_is_not_matched_at_404 :
  property textual_404 "code" = Str "404"
  /\ Number_equal (StringToNumber (Host := decimal_host) "404") (of_Z 404) = true
  /\ exists translated,
       mapCosmosError (H := decimal_host) (Object textual_404) = Normal translated
       /\ RepositoryError.code translated = VALIDATION_ERROR.
Proof.
  split; [reflexivity |]. split; [reflexivity |].
  destruct (string_code_is_not_matched (H := decimal_host) textual_404 "404"
              eq_refl) as (translated & Hrun & _ & H4xx).
  exists translated. split; [exact Hrun |].
  apply (H4xx 404); [lia | reflexivity].
Defined.

(** A document dated in the expanded-year form is saved again in the
    four-digit form. *)
Lemma resave_is_stable_at_expanded_year :
  JSDate.from_string (ProductDocument.createdAt laptop_expanded_year)
  = Instant 1700000000123
  /\ exists d',
       toDocument (toDomain laptop_expanded_year) = Normal d'
       /\ ProductDocument.createdAt d' = iso_string 1700000000123
       /\ no_storage_metadata d'
       /\ toDomain d' = toDomain laptop_expanded_year.
Proof.
  split; [reflexivity |].
  exact (resave_is_stable laptop_expanded_year 1700000000123 eq_refl).
Defined.

Lemma valid_laptop : valid_Product laptop.
Proof. unfold valid_Product, valid_Date, laptop, maxTime; cbn; lia. Defined.

Lemma laptop_echo_same_fields : same_domain_fields laptop_echo laptop_document.
Proof. repeat split. Defined.

Lemma create_echoes_at_laptop :
  valid_Product laptop
  /\ same_domain_fields laptop_echo laptop_document
  /\ create (repo_over (container_answering
               (Normal {| Cosmos.resource := Some laptop_echo |}))) laptop
     = Normal (succeeded laptop).
Proof.
  split; [exact valid_laptop |]. split; [exact laptop_echo_same_fields |].
  exact (create_echoes
           (repo_over (container_answering
              (Normal {| Cosmos.resource := Some laptop_echo |})))
           laptop laptop_document laptop_echo
           valid_laptop toDocument_laptop eq_refl laptop_echo_same_fields).
Defined.

Lemma get_echoes_at_laptop :
  valid_Product laptop
  /\ same_domain_fields laptop_echo laptop_document
  /\ get (repo_over (container_holding "PROD-100" laptop_echo)) "PROD-100"
     = Normal (succeeded laptop).
Proof.
  split; [exact valid_laptop |]. split; [exact laptop_echo_same_fields |].
  exact (get_echoes (repo_over (container_holding "PROD-100" laptop_echo))
           laptop laptop_document laptop_echo
           valid_laptop toDocument_laptop eq_refl laptop_echo_same_fields).
Defined.

Lemma get_with_unreadable_date_at_laptop :
  JSDate.from_string (ProductDocument.createdAt laptop_undated) = InvalidDate
  /\ exists product,
       get (repo_over (container_holding "PROD-100" laptop_undated)) "PROD-100"
       = Normal (succeeded product)
       /\ Product.createdAt product = InvalidDate
       /\ forall that : CosmosProductRepo,
            create that product
            = Normal (failed {|
                RepositoryError.code := PERSISTENCE_ERROR;
                RepositoryError.message := Str "Invalid time value" |}).
Proof.
  split; [reflexivity |].
  exact (get_with_unreadable_date
           (repo_over (container_holding "PROD-100" laptop_undated))
           "PROD-100" laptop_undated eq_refl eq_refl).
Defined.

(** A container that would insert if it might generate the id is never
    given the chance. *)
Lemma create_only_inserts_with_given_id_at_laptop :
  (forall document,
     Cosmos.create (Cosmos.items (container (repo_over container_generating_ids)))
       document {| Cosmos.disableAutomaticIdGeneration := true |}
     = Cosmos.create
         (Cosmos.items (container (repo_over (container_answering (Throw conflict_failure)))))
         document {| Cosmos.disableAutomaticIdGeneration := true |})
  /\ create (repo_over container_generating_ids) laptop
     = create (repo_over (container_answering (Throw conflict_failure))) laptop.
Proof.
  assert (forall document,
     Cosmos.create (Cosmos.items (container (repo_over container_generating_ids)))
       document {| Cosmos.disableAutomaticIdGeneration := true |}
     = Cosmos.create
         (Cosmos.items (container (repo_over (container_answering (Throw conflict_failure)))))
         document {| Cosmos.disableAutomaticIdGeneration := true |}) as Hsame
    by (intros document; reflexivity).
  split; [exact Hsame |].
  exact (create_only_inserts_with_given_id _ _ laptop Hsame).
Defined.

(** A missing container makes [create] report that the product was not
    found. *)
Lemma thrown_object_translation_at_404 :
  toDocument laptop = Normal laptop_document
  /\ create (repo_over (container_answering
               (Throw (Object missing_container_failure)))) laptop
     = Normal (failed {|
         RepositoryError.code := NOT_FOUND;
         RepositoryError.message := Str "Product not found" |})
  /\ get (repo_over (container_answering
            (Throw (Object missing_container_failure)))) "PROD-100"
     = Normal (failed {|
         RepositoryError.code := NOT_FOUND;
         RepositoryError.message := Str "Product not found" |}).
Proof.
  split; [exact toDocument_laptop |]. split.
  - exact (proj1 (thrown_object_translation
             (repo_over (container_answering
                (Throw (Object missing_container_failure))))
             laptop laptop_document "PROD-100" missing_container_failure
             toDocument_laptop) eq_refl).
  - exact (proj2 (thrown_object_translation
             (repo_over (container_answering
                (Throw (Object missing_container_failure))))
             laptop laptop_document "PROD-100" missing_container_failure
             toDocument_laptop) eq_refl).
Defined.

Lemma thrown_primitive_is_lost_at_string :
  Str "socket hang up" <> Undefined
  /\ Str "socket hang up" <> Null
  /\ get (repo_over (container_answering (Throw (Prim (Str "socket hang up")))))
       "PROD-100"
     = Normal (failed {|
         RepositoryError.code := PERSISTENCE_ERROR;
         RepositoryError.message :=
           Str "An error occurred while accessing the database" |}).
Proof.
  assert (Str "socket hang up" <> Undefined) as Hu by discriminate.
  assert (Str "socket hang up" <> Null) as Hn by discriminate.
  split; [exact Hu |]. split; [exact Hn |].
  exact (thrown_primitive_is_lost
           (repo_over (container_answering (Throw (Prim (Str "socket hang up")))))
           "PROD-100" (Str "socket hang up") Hu Hn eq_refl).
Defined.

Lemma toDocument_injective_at_laptop :
  valid_Product laptop /\ toDocument laptop = toDocument laptop /\ laptop = laptop.
Proof.
  split; [exact valid_laptop |]. split; [reflexivity |].
  exact (toDocument_injective laptop laptop valid_laptop valid_laptop eq_refl).
Defined.

Lemma constructor_credentials_at_keys :
  unset_or_empty (CosmosProductRepoOptions.key (cosmosOptions env_with_empty_key))
  /\ new_CosmosProductRepo (cosmosOptions env_with_empty_key)
     = Normal (repo_over (container_answering (Normal {| Cosmos.resource := None |})))
  /\ SDK.CosmosClient (keyless (cosmosOptions env_with_empty_key))
     = Normal {| CosmosClientOptions.endpoint :=
                   "https://catalogue.documents.azure.com:443/";
                 CosmosClientOptions.key := None |}
  /\ CosmosProductRepoOptions.key options_with_key = Some "c2VjcmV0"
  /\ new_CosmosProductRepo options_with_key
     = Normal (repo_over (container_answering (Normal {| Cosmos.resource := None |}))).
Proof.
  assert (unset_or_empty
            (CosmosProductRepoOptions.key (cosmosOptions env_with_empty_key)))
    as Hempty by (right; reflexivity).
  assert ("c2VjcmV0" <> "") as Hkey by discriminate.
  split; [exact Hempty |]. split.
  - exact (proj1 (constructor_credentials (cosmosOptions env_with_empty_key))
             Hempty).
  - split; [reflexivity |]. split; [reflexivity |].
    exact (proj2 (constructor_credentials options_with_key)
             "c2VjcmV0" eq_refl Hkey).
Defined.

Lemma productRepo_without_key_at_empty_key :
  unset_or_empty (env_with_empty_key !! "COSMOS_KEY")
  /\ CosmosProductRepoOptions.endpoint (cosmosOptions env_with_empty_key) <> ""
  /\ productRepo env_with_empty_key
     = (cosmosClient ← SDK.CosmosClient (keyless (cosmosOptions env_with_empty_key));
        database ← SDK.database cosmosClient
                     (env_or (env_with_empty_key !! "COSMOS_DATABASE") "ProductsDB");
        container ← SDK.container database
                      (env_or (env_with_empty_key !! "COSMOS_CONTAINER") "Products");
        mret (as_ProductRepo {| CosmosProductRepo.container := container |})).
Proof.
  assert (unset_or_empty (env_with_empty_key !! "COSMOS_KEY")) as Hempty
    by (right; reflexivity).
  split; [exact Hempty |].
  exact (productRepo_without_key env_with_empty_key Hempty).
Defined.

End FurtherInstances.

(** ** The payload of the list endpoint, run by run *)

Section Payload.

(** A network failure carries no numeric code at all, and is a
    PERSISTENCE_ERROR with its message passed through. *)
Lemma network_failure_is_persistence_error :
  no_numeric_code (H := decimal_host) (property network_failure "code")
  /\ mapCosmosError (H := decimal_host) (Object network_failure)
     = Normal {| RepositoryError.code := PERSISTENCE_ERROR;
                 RepositoryError.message :=
                   Str "connect ECONNREFUSED 127.0.0.1:8081" |}.
Proof. split; reflexivity. Qed.

Lemma a_world_in_range : timestamp_in_range a_world.
Proof. unfold timestamp_in_range, a_world, maxTime; cbn; lia. Qed.

Lemma a_later_world_in_range : timestamp_in_range a_later_world.
Proof. unfold timestamp_in_range, a_later_world, maxTime; cbn; lia. Qed.

(** C5 as stated fails. Two invocations at different times answer with
    different [data]: each item's [createdAt] is [new Date()], read when
    the item is built.  So no one fixed payload is the [data] of every
    success response. *)
Lemma sample_payload_changes_with_the_clock :
  (forall host : Host, exists w',
     listProductsHttp a_repo a_request a_context a_world
     = (Normal {|
          status := 200;
          headers := {[ "Content-Type" := "application/json";
                        "Cache-Control" := "no-cache" ]};
          body := JSON_stringify
            (success_envelope (Instant 1700000000000) (Instant 1700000000001)
               (iso_string 1700000000002)) 2 |}, w'))
  /\ (forall host : Host, exists w',
        listProductsHttp a_repo a_request a_context a_later_world
        = (Normal {|
             status := 200;
             headers := {[ "Content-Type" := "application/json";
                           "Cache-Control" := "no-cache" ]};
             body := JSON_stringify
               (success_envelope (Instant 1800000000000) (Instant 1800000000001)
                  (iso_string 1800000000002)) 2 |}, w'))
  /\ ListProductsResponse.data
       (success_envelope (Instant 1700000000000) (Instant 1700000000001)
          (iso_string 1700000000002))
     <> ListProductsResponse.data
          (success_envelope (Instant 1800000000000) (Instant 1800000000001)
             (iso_string 1800000000002))
  /\ ~ fixed_payload_as_claimed.
Proof.
  split; [| split; [| split]].
  - intros host. eexists. rewrite listProductsHttp_run. cbv zeta.
    rewrite (from_clock_in_range _ a_world_in_range). reflexivity.
  - intros host. eexists. rewrite listProductsHttp_run. cbv zeta.
    rewrite (from_clock_in_range _ a_later_world_in_range). reflexivity.
  - unfold success_envelope, sample_products. cbn [ListProductsResponse.data].
    intros Heq. injection Heq as Heq _. discriminate Heq.
  - intros [fixed Hclaim].
    destruct (Hclaim data_host a_repo a_request a_context a_world
                a_world_in_range) as (w1 & t1 & H1).
    destruct (Hclaim data_host a_repo a_request a_context a_later_world
                a_later_world_in_range) as (w2 & t2 & H2).
    rewrite listProductsHttp_run in H1, H2. cbv zeta in H1, H2.
    rewrite (from_clock_in_range _ a_world_in_range) in H1.
    rewrite (from_clock_in_range _ a_later_world_in_range) in H2.
    injection H1 as H1 _. injection H2 as H2 _.
    unfold JSON_stringify in H1, H2.
    cbn [SerializeJSON data_host] in H1, H2.
    rewrite <- H2 in H1. vm_compute in H1. discriminate H1.
Qed.

End Payload.
